(** * Role-based access control for REST requests: the decision core

    A shallow embedding of the [plugin] package of the
    [simple_rest_rbac] Caddy module: the wildcard resource matcher, the
    rule matcher, the two-pass decision engine, the path and method
    conventions of the HTTP handler, and the conversion of decoded role
    definitions into permission rules.

    Go strings are byte strings; they are modelled by [string], whose
    characters are 8-bit [ascii] values.  A nil pointer or nil slice is
    [None]; a non-nil one is [Some]. *)

From Stdlib Require Import String Ascii List Bool Arith Lia Permutation.
From stdpp Require Import gmap strings list fin_maps.

Local Open Scope string_scope.
Local Open Scope list_scope.

(** ** The parts of Go's [strings] package the plugin calls *)

Module strings.

(** [strings.HasPrefix(s, prefix)]:
    [len(s) >= len(prefix) && s[:len(prefix)] == prefix]. *)
Definition HasPrefix (s prefix : string) : bool :=
  (String.length prefix <=? String.length s)%nat
  && String.eqb (substring 0 (String.length prefix) s) prefix.

(** [strings.HasSuffix(s, suffix)]:
    [len(s) >= len(suffix) && s[len(s)-len(suffix):] == suffix]. *)
Definition HasSuffix (s suffix : string) : bool :=
  (String.length suffix <=? String.length s)%nat
  && String.eqb
       (substring (String.length s - String.length suffix)
                  (String.length suffix) s)
       suffix.

(** [trimLeftByte(s, c)]: drop the leading bytes equal to [c]. *)
Fixpoint trimLeftByte (s : string) (c : ascii) : string :=
  match s with
  | EmptyString => EmptyString
  | String a s' => if Ascii.eqb a c then trimLeftByte s' c else s
  end.

(** [trimRightByte(s, c)]: drop the trailing bytes equal to [c].  The Go
    loop shortens the string from its end; here a byte is dropped when it
    is [c] and everything after it has been dropped. *)
Fixpoint trimRightByte (s : string) (c : ascii) : string :=
  match s with
  | EmptyString => EmptyString
  | String a s' =>
      match trimRightByte s' c with
      | EmptyString => if Ascii.eqb a c then EmptyString
                       else String a EmptyString
      | r => String a r
      end
  end.

(** [strings.Trim(s, cutset)] for a cutset of one ASCII byte:
    [trimLeftByte(trimRightByte(s, c), c)]. *)
Definition Trim (s : string) (c : ascii) : string :=
  trimLeftByte (trimRightByte s c) c.

(** [strings.Split(s, sep)] for a separator of one byte: the substrings
    between the separators, in order; [Split("", sep)] is [[""]]. *)
Fixpoint Split (s : string) (sep : ascii) : list string :=
  match s with
  | EmptyString => [EmptyString]
  | String a s' =>
      if Ascii.eqb a sep then EmptyString :: Split s' sep
      else match Split s' sep with
           | h :: t => String a h :: t
           | [] => [String a EmptyString]
           end
  end.

End strings.

(** ** Data model ([role-definitions.go]) *)

(** [ActionType]: a single string or a slice of strings. *)
Record ActionType := {
  Single : option string;
  Multiple : option (list string)
}.

(** [Permission]: one rule.  The Go field [Type] is [Type_] here. *)
Record Permission := {
  Type_ : string;
  Action : ActionType;
  Resource : string
}.

(** ** The matcher and the decision engine ([can-access.go]) *)

Definition matchWildcard (pattern resource : string) : bool :=
  if String.eqb pattern "*" then true
  else if String.eqb pattern resource then true
  else if strings.HasSuffix pattern "*" then
    strings.HasPrefix resource
      (substring 0 (String.length pattern - 1) pattern)
  else false.

Definition matchTarget (permission : Permission) (resource action : string)
  : bool :=
  if negb (matchWildcard (Resource permission) resource) then false
  else if String.eqb action "" || String.eqb action "*" then true
  else match Multiple (Action permission) with
       | Some actions =>
           existsb (fun a => String.eqb a "*" || String.eqb a action) actions
       | None =>
           match Single (Action permission) with
           | Some a => String.eqb a "*" || String.eqb a action
           | None => false
           end
       end.

Definition canAccessWithPermissions (permissions : list Permission)
  (action resource : string) : bool :=
  if (List.length permissions =? 0)%nat then false
  else if existsb (fun permission =>
                     String.eqb (Type_ permission) "deny"
                     && matchTarget permission resource action) permissions
  then false
  else if existsb (fun permission =>
                     negb (String.eqb (Type_ permission) "deny")
                     && matchTarget permission resource action) permissions
  then true
  else false.


(** ** Facts about the string primitives *)

Section StringFacts.

Lemma substring_0_cons (n : nat) (a : ascii) (s : string) :
  substring 0 (S n) (String a s) = String a (substring 0 n s).
Proof. reflexivity. Qed.

Lemma substring_0_app (p rest : string) :
  substring 0 (String.length p) (p +:+ rest) = p.
Proof.
  induction p as [|a p IH]; simpl.
  - destruct rest; reflexivity.
  - now rewrite IH.
Qed.

Lemma length_app_string (p q : string) :
  String.length (p +:+ q) = String.length p + String.length q.
Proof. induction p as [|a p IH]; simpl; [reflexivity | now rewrite IH]. Qed.

(** [HasPrefix s p] holds exactly when [s] is [p] followed by some rest:
    the bytes of [p] are compared one by one with those of [s]. *)
Lemma HasPrefix_true (s p : string) :
  strings.HasPrefix s p = true <-> exists rest, s = p +:+ rest.
Proof.
  unfold strings.HasPrefix. split.
  - intros H. apply andb_true_iff in H as [_ H].
    apply String.eqb_eq in H.
    revert s H. induction p as [|a p IH]; intros s H.
    + exists s. reflexivity.
    + destruct s as [|b s]; simpl in H; [discriminate|].
      injection H as -> H. destruct (IH s H) as [rest ->].
      exists rest. reflexivity.
  - intros [rest ->]. apply andb_true_iff. split.
    + apply Nat.leb_le. rewrite length_app_string. lia.
    + apply String.eqb_eq, substring_0_app.
Qed.

Lemma HasPrefix_empty (s : string) : strings.HasPrefix s "" = true.
Proof. apply HasPrefix_true. exists s. reflexivity. Qed.

(** The one-byte string made of the last byte of a non-empty string. *)
Lemma substring_last_cons (a b : ascii) (s : string) :
  substring (String.length (String a (String b s)) - 1) 1
            (String a (String b s))
  = substring (String.length (String b s) - 1) 1 (String b s).
Proof. simpl. rewrite Nat.sub_0_r. reflexivity. Qed.

Lemma HasSuffix_cons (a b : ascii) (s suffix1 : string) :
  String.length suffix1 = 1 ->
  strings.HasSuffix (String a (String b s)) suffix1
  = strings.HasSuffix (String b s) suffix1.
Proof.
  intros Hl. unfold strings.HasSuffix. rewrite Hl.
  rewrite substring_last_cons. reflexivity.
Qed.

Lemma app_star_neq_empty (q : string) : q +:+ "*" <> "".
Proof. destruct q; discriminate. Qed.

(** A string ends with ["*"] exactly when it is some prefix followed by
    ["*"]. *)
Lemma HasSuffix_star (p : string) :
  strings.HasSuffix p "*" = true <-> exists q, p = q +:+ "*".
Proof.
  split.
  - induction p as [|a p IH]; intros H; [discriminate|].
    destruct p as [|b p].
    + unfold strings.HasSuffix in H. simpl in H.
      destruct (Ascii.eqb_spec a "*"%char) as [->|]; [|discriminate].
      exists "". reflexivity.
    + rewrite HasSuffix_cons in H by reflexivity.
      destruct (IH H) as [q Hq]. exists (String a q). simpl. now rewrite Hq.
  - intros [q ->]. induction q as [|a q IH]; [reflexivity|].
    change (String a q +:+ "*") with (String a (q +:+ "*")).
    destruct (q +:+ "*") as [|b r] eqn:E;
      [now apply app_star_neq_empty in E|].
    rewrite HasSuffix_cons by reflexivity. exact IH.
Qed.

(** [pattern[:len(pattern)-1]] of a pattern [q ++ "*"] is [q]. *)
Lemma substring_drop_star (q : string) :
  substring 0 (String.length (q +:+ "*") - 1) (q +:+ "*") = q.
Proof.
  rewrite length_app_string. simpl.
  replace (String.length q + 1 - 1) with (String.length q) by lia.
  apply substring_0_app.
Qed.

End StringFacts.

(** ** The wildcard resource matcher *)

Section Matcher.

(** A pattern that ends with ["*"] and is not the resource itself is
    decided by the prefix test alone. *)
Lemma matchWildcard_star_suffix (q resource : string) :
  matchWildcard (q +:+ "*") resource = true
  <-> exists rest, resource = q +:+ rest.
Proof.
  unfold matchWildcard.
  destruct (String.eqb_spec (q +:+ "*") "*") as [E|NE].
  - assert (q = "") as ->.
    { destruct q as [|a q]; [reflexivity|].
      simpl in E. injection E as _ E. now apply app_star_neq_empty in E. }
    split; [intros _; exists resource; reflexivity | reflexivity].
  - destruct (String.eqb_spec (q +:+ "*") resource) as [<-|NR].
    + split; [intros _; exists "*"; reflexivity | reflexivity].
    + assert (strings.HasSuffix (q +:+ "*") "*" = true) as ->
        by (apply HasSuffix_star; now exists q).
      rewrite substring_drop_star. apply HasPrefix_true.
Qed.

Lemma matchWildcard_no_star_suffix (pattern resource : string) :
  pattern <> "*" ->
  (forall q, pattern <> q +:+ "*") ->
  matchWildcard pattern resource = true <-> pattern = resource.
Proof.
  intros NS NQ. unfold matchWildcard.
  destruct (String.eqb_spec pattern "*") as [E|_]; [contradiction|].
  destruct (String.eqb_spec pattern resource) as [E|NE]; [tauto|].
  destruct (strings.HasSuffix pattern "*") eqn:HS.
  - apply HasSuffix_star in HS as [q ->]. now destruct (NQ q).
  - split; [discriminate | contradiction].
Qed.

Lemma matchWildcard_true (pattern resource : string) :
  matchWildcard pattern resource = true
  <-> pattern = "*" \/ pattern = resource
      \/ exists q rest, pattern = q +:+ "*" /\ resource = q +:+ rest.
Proof.
  split.
  - intros H.
    destruct (String.eqb_spec pattern "*") as [E|NS]; [now left|].
    destruct (strings.HasSuffix pattern "*") eqn:HS.
    + apply HasSuffix_star in HS as [q ->].
      apply matchWildcard_star_suffix in H as [rest ->].
      right; right. now exists q, rest.
    + right; left. apply matchWildcard_no_star_suffix in H; [assumption.. |].
      intros q ->.
      assert (strings.HasSuffix (q +:+ "*") "*" = true)
        by (apply HasSuffix_star; now exists q).
      congruence.
  - intros [->|[->|(q & rest & -> & ->)]].
    + reflexivity.
    + unfold matchWildcard. rewrite String.eqb_refl.
      now destruct (resource =? "*")%string.
    + apply matchWildcard_star_suffix. now exists rest.
Qed.

End Matcher.

(** C3.  [matchWildcard pattern resource] is true when the pattern is
    ["*"], when the pattern equals the resource, and when the pattern ends
    with ["*"] and the resource starts with the pattern minus that last
    ["*"]; it is false in every other case.  In particular
    ["posts.*"] matches ["posts.views"] and not ["posts"] nor
    ["comments.views"], and ["foo"] does not match ["foobar"]. *)
Theorem matchWildcard_cases :
  (forall resource, matchWildcard "*" resource = true)
  /\ (forall resource, matchWildcard resource resource = true)
  /\ (forall q rest, matchWildcard (q +:+ "*") (q +:+ rest) = true)
  /\ (forall pattern resource,
        matchWildcard pattern resource = false
        <-> pattern <> "*" /\ pattern <> resource
            /\ ~ (exists q rest, pattern = q +:+ "*" /\ resource = q +:+ rest))
  /\ matchWildcard "posts.*" "posts.views" = true
  /\ matchWildcard "posts.*" "posts.average_note" = true
  /\ matchWildcard "posts.*" "posts" = false
  /\ matchWildcard "posts.*" "comments.views" = false
  /\ matchWildcard "foo" "foo" = true
  /\ matchWildcard "foo" "foobar" = false.
Proof.
  split; [reflexivity|].
  split; [intros r; apply matchWildcard_true; now right; left|].
  split; [intros q rest; apply matchWildcard_star_suffix; now exists rest|].
  split; [|repeat split].
  intros pattern resource. split.
  - intros H. repeat split.
    + intros ->. discriminate H.
    + intros ->.
      pose proof (proj2 (matchWildcard_true resource resource)) as T.
      rewrite T in H; [discriminate | now right; left].
    + intros (q & rest & -> & ->).
      pose proof (proj2 (matchWildcard_star_suffix q (q +:+ rest))) as T.
      rewrite T in H; [discriminate | now exists rest].
  - intros (NS & NE & NP).
    destruct (matchWildcard pattern resource) eqn:M; [|reflexivity].
    apply matchWildcard_true in M as [E|[E|E]]; contradiction.
Qed.

(** C10.  Only a ["*"] at the end of a pattern is a wildcard.  A pattern
    other than ["*"] that does not end with ["*"] matches exactly the
    resource equal to it, whatever ["*"] bytes it has elsewhere:
    ["*.views"] matches the resource ["*.views"] only.  For a pattern
    [q ++ "*"], the resource matches exactly when it starts with the bytes
    of [q], each compared literally, ["*"] included. *)
Theorem matchWildcard_only_trailing_star :
  (forall pattern resource,
      pattern <> "*" ->
      (forall q, pattern <> q +:+ "*") ->
      matchWildcard pattern resource = true <-> pattern = resource)
  /\ (forall resource,
        matchWildcard "*.views" resource = true <-> resource = "*.views")
  /\ (forall q resource,
        matchWildcard (q +:+ "*") resource = true
        <-> exists rest, resource = q +:+ rest)
  /\ matchWildcard "a*b*" "a*bc" = true
  /\ matchWildcard "a*b*" "axbc" = false
  /\ matchWildcard "*.views" "posts.views" = false.
Proof.
  split; [exact matchWildcard_no_star_suffix|].
  split.
  { intros resource.
    rewrite (matchWildcard_no_star_suffix "*.views" resource).
    - split; congruence.
    - discriminate.
    - intros q E.
      assert (strings.HasSuffix "*.views" "*" = true) as HS
        by (apply HasSuffix_star; now exists q).
      discriminate HS. }
  split; [exact matchWildcard_star_suffix|].
  repeat split.
Qed.

(** ** The decision engine *)

(** The two predicates scanned by the two loops of
    [canAccessWithPermissions]. *)
Definition denies (p : Permission) (action resource : string) : Prop :=
  Type_ p = "deny" /\ matchTarget p resource action = true.

Definition allows (p : Permission) (action resource : string) : Prop :=
  Type_ p <> "deny" /\ matchTarget p resource action = true.

Section Engine.

Implicit Types (rules : list Permission) (action resource : string).

Lemma deny_pass_true rules action resource :
  existsb (fun permission =>
             String.eqb (Type_ permission) "deny"
             && matchTarget permission resource action) rules = true
  <-> exists p, In p rules /\ denies p action resource.
Proof.
  rewrite existsb_exists. unfold denies.
  split; intros (p & Hin & H); exists p; split; try assumption.
  - apply andb_true_iff in H as [H1 H2]. now apply String.eqb_eq in H1.
  - destruct H as [H1 H2]. apply andb_true_iff.
    split; [now apply String.eqb_eq | assumption].
Qed.

Lemma allow_pass_true rules action resource :
  existsb (fun permission =>
             negb (String.eqb (Type_ permission) "deny")
             && matchTarget permission resource action) rules = true
  <-> exists p, In p rules /\ allows p action resource.
Proof.
  rewrite existsb_exists. unfold allows.
  split; intros (p & Hin & H); exists p; split; try assumption.
  - apply andb_true_iff in H as [H1 H2]. split; [|assumption].
    apply negb_true_iff in H1. now apply String.eqb_neq in H1.
  - destruct H as [H1 H2]. apply andb_true_iff. split; [|assumption].
    apply negb_true_iff. now apply String.eqb_neq.
Qed.

Lemma canAccess_true rules action resource :
  canAccessWithPermissions rules action resource = true
  <-> (exists p, In p rules /\ allows p action resource)
      /\ ~ (exists p, In p rules /\ denies p action resource).
Proof.
  rewrite <- deny_pass_true, <- allow_pass_true.
  unfold canAccessWithPermissions.
  destruct rules as [|r rules]; [simpl; intuition discriminate|].
  change (List.length (r :: rules) =? 0)%nat with false. cbv iota.
  destruct (existsb _ (r :: rules)); [intuition discriminate|].
  destruct (existsb _ (r :: rules)); intuition discriminate.
Qed.

Lemma canAccess_false_of_deny rules action resource p :
  In p rules -> denies p action resource ->
  canAccessWithPermissions rules action resource = false.
Proof.
  intros Hin Hd.
  destruct (canAccessWithPermissions rules action resource) eqn:E;
    [|reflexivity].
  apply canAccess_true in E as [_ E]. destruct E. now exists p.
Qed.

Lemma canAccess_permutation rules rules' action resource :
  Permutation rules rules' ->
  canAccessWithPermissions rules action resource
  = canAccessWithPermissions rules' action resource.
Proof.
  intros HP.
  assert (forall l l', Permutation l l' ->
            canAccessWithPermissions l action resource = true ->
            canAccessWithPermissions l' action resource = true) as Mono.
  { intros l l' P H. apply canAccess_true in H as [(p & Hin & Ha) Hd].
    apply canAccess_true. split.
    - exists p. split; [now apply (Permutation_in _ P) | assumption].
    - intros (d & Hin' & Hd'). apply Hd. exists d. split; [|assumption].
      now apply (Permutation_in _ (Permutation_sym P)). }
  destruct (canAccessWithPermissions rules action resource) eqn:E1,
           (canAccessWithPermissions rules' action resource) eqn:E2;
    try reflexivity.
  - apply (Mono _ _ HP) in E1. congruence.
  - apply (Mono _ _ (Permutation_sym HP)) in E2. congruence.
Qed.

End Engine.

(** C1.  [canAccessWithPermissions rules action resource] is true exactly
    when some rule whose type is not ["deny"] matches the pair and no rule
    whose type is ["deny"] matches it.  It is false on the empty rule list
    and false when no rule matches. *)
Theorem canAccess_deny_overrides_default_deny :
  (forall rules action resource,
      canAccessWithPermissions rules action resource = true
      <-> (exists p, In p rules /\ Type_ p <> "deny"
                     /\ matchTarget p resource action = true)
          /\ ~ (exists p, In p rules /\ Type_ p = "deny"
                          /\ matchTarget p resource action = true))
  /\ (forall action resource,
        canAccessWithPermissions [] action resource = false)
  /\ (forall rules action resource,
        (forall p, In p rules -> matchTarget p resource action = false) ->
        canAccessWithPermissions rules action resource = false).
Proof.
  split; [exact canAccess_true|]. split; [reflexivity|].
  intros rules action resource Hno.
  destruct (canAccessWithPermissions rules action resource) eqn:E;
    [|reflexivity].
  apply canAccess_true in E as [(p & Hin & _ & Hm) _].
  rewrite (Hno p Hin) in Hm. discriminate.
Qed.

(** C2.  The decision does not depend on the order of the rules: on any
    permutation of the rule list [canAccessWithPermissions] returns the
    same boolean. *)
Theorem canAccess_order_independent :
  forall rules rules' action resource,
    Permutation rules rules' ->
    canAccessWithPermissions rules action resource
    = canAccessWithPermissions rules' action resource.
Proof. exact canAccess_permutation. Qed.

Example canAccess_order_independent_witness :
  canAccessWithPermissions
    [ {| Type_ := "deny"; Resource := "posts.views";
         Action := {| Single := Some "read"; Multiple := None |} |};
      {| Type_ := ""; Resource := "posts.*";
         Action := {| Single := Some "read"; Multiple := None |} |} ]
    "read" "posts.views"
  = canAccessWithPermissions
      [ {| Type_ := ""; Resource := "posts.*";
           Action := {| Single := Some "read"; Multiple := None |} |};
        {| Type_ := "deny"; Resource := "posts.views";
           Action := {| Single := Some "read"; Multiple := None |} |} ]
      "read" "posts.views".
Proof. apply canAccess_order_independent. apply perm_swap. Defined.

(** ** Action matching *)

(** The identifiers a rule names: the single string, or the entries of the
    list. *)
Definition actionSet (a : ActionType) : list string :=
  match Single a with Some s => [s] | None => [] end
  ++ match Multiple a with Some l => l | None => [] end.

(** The action field holds a single string or a list, not both. *)
Definition singleOrList (a : ActionType) : Prop :=
  Single a = None \/ Multiple a = None.

Section ActionMatching.

Lemma existsb_action (action : string) (l : list string) :
  existsb (fun a => String.eqb a "*" || String.eqb a action) l = true
  <-> In "*" l \/ In action l.
Proof.
  rewrite existsb_exists. split.
  - intros (a & Hin & H). apply orb_true_iff in H as [H|H];
      apply String.eqb_eq in H; subst; tauto.
  - intros [H|H]; [exists "*" | exists action]; (split; [assumption|]);
      rewrite String.eqb_refl; [reflexivity | apply orb_true_r].
Qed.

Lemma matchTarget_generic (p : Permission) (resource action : string) :
  matchWildcard (Resource p) resource = true ->
  action = "" \/ action = "*" ->
  matchTarget p resource action = true.
Proof.
  intros HR HA. unfold matchTarget. rewrite HR.
  destruct HA as [-> | ->]; reflexivity.
Qed.

Lemma matchTarget_specific (p : Permission) (resource action : string) :
  matchWildcard (Resource p) resource = true ->
  action <> "" -> action <> "*" ->
  matchTarget p resource action
  = match Multiple (Action p) with
    | Some actions =>
        existsb (fun a => String.eqb a "*" || String.eqb a action) actions
    | None =>
        match Single (Action p) with
        | Some a => String.eqb a "*" || String.eqb a action
        | None => false
        end
    end.
Proof.
  intros HR H1 H2. unfold matchTarget. rewrite HR.
  apply String.eqb_neq in H1, H2. now rewrite H1, H2.
Qed.

Lemma matchTarget_resource (p : Permission) (resource action : string) :
  matchTarget p resource action = true ->
  matchWildcard (Resource p) resource = true.
Proof.
  unfold matchTarget.
  destruct (matchWildcard (Resource p) resource);
    [reflexivity | discriminate].
Qed.

(** A rule for which neither a string nor a list was stored matches no
    specific action. *)
Lemma matchTarget_no_action (p : Permission) (resource action : string) :
  Single (Action p) = None -> Multiple (Action p) = None ->
  action <> "" -> action <> "*" ->
  matchTarget p resource action = false.
Proof.
  intros HS HM H1 H2.
  destruct (matchWildcard (Resource p) resource) eqn:HR.
  - rewrite matchTarget_specific by assumption. now rewrite HM, HS.
  - unfold matchTarget. now rewrite HR.
Qed.

End ActionMatching.

(** C4.  For a rule whose resource pattern matches the requested resource:
    when the requested action is the empty string or ["*"] the rule
    matches; for any other requested action the rule matches exactly when
    its action set (a single string or a list) contains ["*"] or the
    requested action.  The action set [["list"; "show"]] matches ["list"]
    and ["show"] and not ["create"]; the action set [["*"]] matches every
    action. *)
Theorem matchTarget_action_rule :
  (forall p resource action,
      matchWildcard (Resource p) resource = true ->
      (action = "" \/ action = "*" -> matchTarget p resource action = true)
      /\ (singleOrList (Action p) ->
          action <> "" -> action <> "*" ->
          (matchTarget p resource action = true
           <-> In "*" (actionSet (Action p))
               \/ In action (actionSet (Action p)))))
  /\ (forall ty pattern resource,
        matchWildcard pattern resource = true ->
        let p := {| Type_ := ty; Resource := pattern;
                    Action := {| Single := None;
                                 Multiple := Some ["list"; "show"] |} |} in
        matchTarget p resource "list" = true
        /\ matchTarget p resource "show" = true
        /\ matchTarget p resource "create" = false)
  /\ (forall ty pattern resource action,
        matchWildcard pattern resource = true ->
        matchTarget {| Type_ := ty; Resource := pattern;
                       Action := {| Single := None;
                                    Multiple := Some ["*"] |} |}
                    resource action = true).
Proof.
  split; [|split].
  - intros p resource action HR. split; [now apply matchTarget_generic|].
    intros HW H1 H2. rewrite matchTarget_specific by assumption.
    unfold actionSet.
    destruct HW as [HS|HM].
    + rewrite HS. destruct (Multiple (Action p)) as [l|].
      * apply existsb_action.
      * simpl. intuition discriminate.
    + rewrite HM. destruct (Single (Action p)) as [a|].
      * rewrite orb_true_iff, !String.eqb_eq. simpl. intuition.
      * simpl. intuition discriminate.
  - intros ty pattern resource HR p. unfold matchTarget. simpl.
    rewrite HR. repeat split.
  - intros ty pattern resource action HR. unfold matchTarget. simpl.
    rewrite HR. simpl. now destruct (_ || _).
Qed.

Example matchTarget_action_rule_witness :
  matchTarget {| Type_ := ""; Resource := "comments";
                 Action := {| Single := None;
                              Multiple := Some ["list"; "show"; "create"] |} |}
              "comments" "create" = true.
Proof.
  apply (proj1 matchTarget_action_rule); simpl;
    [reflexivity | now left | discriminate | discriminate | tauto].
Defined.

(** ** Deny rules without an action *)

Section DenyWithoutAction.

(** A rule that does not match the request has no part in the decision. *)
Lemma canAccess_skip_unmatched
      (l1 l2 : list Permission) (d : Permission) (action resource : string) :
  matchTarget d resource action = false ->
  canAccessWithPermissions (l1 ++ d :: l2) action resource
  = canAccessWithPermissions (l1 ++ l2) action resource.
Proof.
  intros Hd.
  assert (forall p, In p (l1 ++ d :: l2) <-> p = d \/ In p (l1 ++ l2)) as Hin.
  { intros p. rewrite !in_app_iff. simpl. intuition. }
  assert (canAccessWithPermissions (l1 ++ d :: l2) action resource = true
          <-> canAccessWithPermissions (l1 ++ l2) action resource = true)
    as Hiff.
  { rewrite !canAccess_true. unfold allows, denies. split.
    - intros [(p & Hp & Ha) Hno]. split.
      + exists p. split; [|assumption]. apply Hin in Hp as [->|Hp];
          [destruct Ha; congruence | assumption].
      + intros (q & Hq & Hqd). apply Hno. exists q.
        split; [apply Hin; now right | assumption].
    - intros [(p & Hp & Ha) Hno]. split.
      + exists p. split; [apply Hin; now right | assumption].
      + intros (q & Hq & Hqd). apply Hin in Hq as [->|Hq];
          [destruct Hqd; congruence|].
        apply Hno. now exists q. }
  destruct (canAccessWithPermissions (l1 ++ d :: l2) action resource),
           (canAccessWithPermissions (l1 ++ l2) action resource);
    intuition congruence.
Qed.

End DenyWithoutAction.

(** The rules that refute C5 as stated: a deny rule on ["posts"] with no
    action, and an allow rule for ["list"] on ["posts"]. *)
Definition denyPostsNoAction : Permission :=
  {| Type_ := "deny"; Resource := "posts";
     Action := {| Single := None; Multiple := None |} |}.

Definition allowListPosts : Permission :=
  {| Type_ := "allow"; Resource := "posts";
     Action := {| Single := Some "list"; Multiple := None |} |}.

(** C5 as stated fails: the deny rule without an action matches the
    resource ["posts"], and the request [("list", "posts")] is granted. *)
Lemma deny_without_action_does_not_shadow :
  ~ (forall rules d action resource,
        In d rules ->
        Type_ d = "deny" ->
        Single (Action d) = None -> Multiple (Action d) = None ->
        matchWildcard (Resource d) resource = true ->
        canAccessWithPermissions rules action resource = false).
Proof.
  intros H.
  specialize (H [denyPostsNoAction; allowListPosts] denyPostsNoAction
                "list" "posts").
  simpl in H. discriminate H; auto.
Qed.

(** C5, amended.  Let a rule list contain a deny rule for which neither a
    string nor a list was stored as its action, and let that rule's resource
    pattern match the requested resource.  When the requested action is the
    empty string or ["*"], [canAccessWithPermissions] returns false.  For
    every other requested action the rule matches nothing: it does not
    match the request, and the decision is the one of the list without
    it. *)
Theorem deny_without_action_generic_only :
  forall l1 l2 d action resource,
    Type_ d = "deny" ->
    Single (Action d) = None -> Multiple (Action d) = None ->
    matchWildcard (Resource d) resource = true ->
    (action = "" \/ action = "*" ->
     canAccessWithPermissions (l1 ++ d :: l2) action resource = false)
    /\ (action <> "" -> action <> "*" ->
        matchTarget d resource action = false
        /\ canAccessWithPermissions (l1 ++ d :: l2) action resource
           = canAccessWithPermissions (l1 ++ l2) action resource).
Proof.
  intros l1 l2 d action resource HT HS HM HR. split.
  - intros HA. apply (canAccess_false_of_deny _ _ _ d).
    + apply in_elt.
    + split; [assumption | now apply matchTarget_generic].
  - intros H1 H2.
    assert (matchTarget d resource action = false) as Hd
      by now apply matchTarget_no_action.
    split; [assumption | now apply canAccess_skip_unmatched].
Qed.

Example deny_without_action_generic_only_witness :
  canAccessWithPermissions [allowListPosts; denyPostsNoAction] "*" "posts"
  = false
  /\ canAccessWithPermissions [allowListPosts; denyPostsNoAction] "list" "posts"
     = canAccessWithPermissions [allowListPosts] "list" "posts".
Proof.
  pose proof (deny_without_action_generic_only
                [allowListPosts] [] denyPostsNoAction) as H.
  split.
  - apply (H "*" "posts"); try reflexivity. now right.
  - apply (H "list" "posts"); try reflexivity; discriminate.
Defined.

(** ** The scenario of the specification *)

Definition scenarioRules : list Permission :=
  [ {| Type_ := "allow"; Resource := "posts";
       Action := {| Single := None; Multiple := Some ["list"; "show"] |} |};
    {| Type_ := "deny"; Resource := "posts.views";
       Action := {| Single := Some "read"; Multiple := None |} |} ].

(** C6.  On the rules [allow ["list","show"] on "posts"] and
    [deny "read" on "posts.views"], the request [("read", "posts.views")]
    is refused, [("list", "posts")] is granted and [("delete", "posts")]
    is refused. *)
Theorem canAccess_scenario :
  canAccessWithPermissions scenarioRules "read" "posts.views" = false
  /\ canAccessWithPermissions scenarioRules "list" "posts" = true
  /\ canAccessWithPermissions scenarioRules "delete" "posts" = false.
Proof. repeat split. Qed.

(** ** Path and method conventions of the handler *)

(** [extractResource]: the first part of the trimmed path, when it is not
    empty. *)
Definition extractResource (path : string) : string :=
  let parts := strings.Split (strings.Trim path "/") "/" in
  if (0 <? List.length parts)%nat && negb (String.eqb (nth 0 parts "") "")
  then nth 0 parts ""
  else "".

(** [extractRecordID]: the second part of the trimmed path, when there is
    one and it is not empty. *)
Definition extractRecordID (path : string) : string :=
  let parts := strings.Split (strings.Trim path "/") "/" in
  if (1 <? List.length parts)%nat && negb (String.eqb (nth 1 parts "") "")
  then nth 1 parts ""
  else "".

(** [getActionFromMethod]: the switch on the HTTP method. *)
Definition getActionFromMethod (method : string) (hasRecordID : bool)
  : string :=
  if String.eqb method "GET" then
    if hasRecordID then "show" else "list"
  else if String.eqb method "POST" then "create"
  else if String.eqb method "PUT" || String.eqb method "PATCH" then "edit"
  else if String.eqb method "DELETE" then "delete"
  else "".

(** The part of [http.Request] the handler reads: the method, the URL path
    and, in the request context, the replacer of the server (given by its
    [ReplaceAll] method), absent when the context holds none. *)
Record Request := {
  Method : string;
  URL_Path : string;
  Replacer : option (string -> string -> string)
}.

(** [getActionFromRequest]: the same switch, the record identifier being
    read from the request path. *)
Definition getActionFromRequest (r : Request) : string :=
  let recordID := extractRecordID (URL_Path r) in
  let hasRecordID := negb (String.eqb recordID "") in
  if String.eqb (Method r) "GET" then
    if hasRecordID then "show" else "list"
  else if String.eqb (Method r) "POST" then "create"
  else if String.eqb (Method r) "PUT" || String.eqb (Method r) "PATCH"
  then "edit"
  else if String.eqb (Method r) "DELETE" then "delete"
  else "".

(** The outcome of [ServeHTTP]: the request is handed to the next handler,
    or a [caddyhttp.Error] with a status code and an error message ([None]
    for a nil error) is returned. *)
Inductive HandlerResult :=
| NextHandler
| HandlerError (status : nat) (err : option string).

(** The calls to the logger, with their fields. *)
Inductive LogEntry :=
| LogWarn (msg : string) (fields : list (string * string))
| LogInfo (msg : string) (fields : list (string * string)).

Definition StatusForbidden : nat := 403.
Definition StatusMethodNotAllowed : nat := 405.
Definition StatusInternalServerError : nat := 500.

(** The handler whose role is a constant of the package. *)
Module FixedRole.

Record Middleware := {
  RolesFilePath : string;
  roles : gmap string (list Permission)
}.

Definition role : string := "accountant".

Section Serve.

(** The decision procedure the handler calls; the plugin calls
    [canAccessWithPermissions]. *)
Variable engine : list Permission -> string -> string -> bool.

Definition ServeHTTP_with (m : Middleware) (r : Request)
  : list LogEntry * HandlerResult :=
  let resource := extractResource (URL_Path r) in
  if String.eqb resource "" then ([], NextHandler)
  else
    let recordID := extractRecordID (URL_Path r) in
    let hasRecordID := negb (String.eqb recordID "") in
    let action := getActionFromMethod (Method r) hasRecordID in
    if String.eqb action "" then
      ([], HandlerError StatusMethodNotAllowed (Some "method not allowed"))
    else
      match roles m !! role with
      | None =>
          ([LogWarn "Role not found" [("role", role)]],
           HandlerError StatusForbidden (Some ("role not found: " +:+ role)))
      | Some permissions =>
          if negb (engine permissions action resource) then
            ([LogInfo "Access denied"
                [("role", role); ("action", action);
                 ("resource", resource); ("record_id", recordID)]],
             HandlerError StatusForbidden (Some "access denied"))
          else
            ([LogInfo "Access granted"
                [("role", role); ("action", action);
                 ("resource", resource); ("record_id", recordID)]],
             NextHandler)
      end.

End Serve.

Definition ServeHTTP : Middleware -> Request -> list LogEntry * HandlerResult :=
  ServeHTTP_with canAccessWithPermissions.

End FixedRole.

(** The handler whose role is configured, with placeholders resolved by the
    replacer of the request. *)
Module ConfiguredRole.

Record Middleware := {
  Role : string;
  RolesFilePath : string;
  roles : gmap string (list Permission)
}.

Section Serve.

(** [strings.TrimSpace], which strips Unicode white space. *)
Variable TrimSpace : string -> string.

(** The decision procedure the handler calls; the plugin calls
    [canAccessWithPermissions]. *)
Variable engine : list Permission -> string -> string -> bool.

Definition ServeHTTP_with (m : Middleware) (r : Request)
  : list LogEntry * HandlerResult :=
  match Replacer r with
  | None => ([], HandlerError StatusInternalServerError None)
  | Some repl =>
      let resource := extractResource (URL_Path r) in
      if String.eqb resource "" then ([], NextHandler)
      else
        let action := getActionFromRequest r in
        if String.eqb action "" then
          ([], HandlerError StatusMethodNotAllowed
                 (Some "method not allowed"))
        else
          let resolvedRole := TrimSpace (repl (Role m) "") in
          if String.eqb resolvedRole "" then
            ([], HandlerError StatusMethodNotAllowed
                   (Some "role not defined"))
          else
            match roles m !! resolvedRole with
            | None =>
                ([LogWarn "Role not found" [("role", resolvedRole)]],
                 HandlerError StatusForbidden
                   (Some ("role not found: " +:+ resolvedRole)))
            | Some permissions =>
                if negb (engine permissions action resource) then
                  ([LogInfo "Access denied"
                      [("role", resolvedRole); ("action", action);
                       ("resource", resource)]],
                   HandlerError StatusForbidden (Some "access denied"))
                else
                  ([LogInfo "Access granted"
                      [("role", resolvedRole); ("action", action);
                       ("resource", resource)]],
                   NextHandler)
            end
  end.

End Serve.

Definition ServeHTTP (TrimSpace : string -> string)
  : Middleware -> Request -> list LogEntry * HandlerResult :=
  ServeHTTP_with TrimSpace canAccessWithPermissions.

End ConfiguredRole.

(** ** The path convention, as the specification words it *)

(** Discard the empty segments at the head of a list of segments. *)
Fixpoint dropLeadingEmpty (l : list string) : list string :=
match l with
| EmptyString :: l' => dropLeadingEmpty l'
| _ => l
end.

(** Discard the empty segments at the end of a list of segments. *)
Fixpoint dropTrailingEmpty (l : list string) : list string :=
match l with
| [] => []
| x :: l' =>
    match dropTrailingEmpty l' with
    | [] => if String.eqb x "" then [] else [x]
    | r => x :: r
    end
end.

(** The segments of a path: split on ["/"], then discard the empty segments
    that leading and trailing separators produced. *)
Definition pathSegments (path : string) : list string :=
dropLeadingEmpty (dropTrailingEmpty (strings.Split path "/")).

(** Every byte of the string is [c]. *)
Fixpoint onlyByte (c : ascii) (s : string) : bool :=
match s with
| EmptyString => true
| String a s' => Ascii.eqb a c && onlyByte c s'
end.

Section PathFacts.

Variable c : ascii.

Lemma trimLeftByte_empty (s : string) :
  strings.trimLeftByte s c = "" <-> onlyByte c s = true.
Proof.
  induction s as [|a s IH]; simpl; [tauto|].
  destruct (Ascii.eqb a c); simpl; [exact IH|].
  split; discriminate.
Qed.

Lemma onlyByte_trimRightByte (s : string) :
  onlyByte c (strings.trimRightByte s c) = onlyByte c s.
Proof.
  induction s as [|a s IH]; [reflexivity|].
  cbn [strings.trimRightByte onlyByte].
  destruct (strings.trimRightByte s c) as [|b r].
  - rewrite <- IH. simpl.
    destruct (Ascii.eqb a c) eqn:E; simpl; [reflexivity|].
    now rewrite E.
  - rewrite <- IH. reflexivity.
Qed.

Lemma Trim_empty (s : string) :
  strings.Trim s c = "" <-> onlyByte c s = true.
Proof.
  unfold strings.Trim. rewrite trimLeftByte_empty.
  now rewrite onlyByte_trimRightByte.
Qed.

Lemma Split_not_nil (s : string) : strings.Split s c <> [].
Proof.
  destruct s as [|a s]; simpl; [discriminate|].
  destruct (Ascii.eqb a c); [discriminate|].
  destruct (strings.Split s c); discriminate.
Qed.

Lemma Split_cons_sep (s : string) :
  strings.Split (String c s) c = "" :: strings.Split s c.
Proof. simpl. now rewrite Ascii.eqb_refl. Qed.

Lemma Split_cons_other (a : ascii) (s : string) :
  a <> c ->
  exists h t, strings.Split s c = h :: t
              /\ strings.Split (String a s) c = String a h :: t.
Proof.
  intros Hne. apply Ascii.eqb_neq in Hne. simpl. rewrite Hne.
  destruct (strings.Split s c) as [|h t] eqn:E;
    [now apply Split_not_nil in E|].
  now exists h, t.
Qed.

Lemma Split_singleton_empty (s : string) :
  strings.Split s c = [""] -> s = "".
Proof.
  destruct s as [|a s]; [reflexivity|]. simpl.
  destruct (Ascii.eqb a c).
  - intros H. injection H as H. now apply Split_not_nil in H.
  - destruct (strings.Split s c); discriminate.
Qed.

Lemma dropTrailingEmpty_not_singleton_empty (l : list string) :
  dropTrailingEmpty l <> [""].
Proof.
  destruct l as [|x l]; simpl; [discriminate|].
  destruct (dropTrailingEmpty l) as [|y r].
  - destruct (String.eqb_spec x ""); congruence.
  - discriminate.
Qed.

Lemma trimRightByte_cons_other (a : ascii) (s : string) :
  a <> c ->
  strings.trimRightByte (String a s) c
  = String a (strings.trimRightByte s c).
Proof.
  intros Hne. apply Ascii.eqb_neq in Hne. simpl. rewrite Hne.
  now destruct (strings.trimRightByte s c).
Qed.

(** Splitting after trimming the right end is splitting, then discarding
    the empty segments at the end; [Split] never returns the empty list. *)
Lemma Split_trimRightByte (s : string) :
  strings.Split (strings.trimRightByte s c) c
  = match dropTrailingEmpty (strings.Split s c) with
    | [] => [""]
    | r => r
    end.
Proof.
  induction s as [|a s IH]; [reflexivity|].
  destruct (Ascii.eqb_spec a c) as [->|Hne].
  - rewrite Split_cons_sep.
    cbn [dropTrailingEmpty strings.trimRightByte].
    rewrite Ascii.eqb_refl, String.eqb_refl.
    destruct (dropTrailingEmpty (strings.Split s c)) as [|y r] eqn:ED.
    + apply Split_singleton_empty in IH. now rewrite IH.
    + destruct (strings.trimRightByte s c) as [|b t] eqn:ET.
      * exfalso. simpl in IH.
        apply (dropTrailingEmpty_not_singleton_empty (strings.Split s c)).
        congruence.
      * rewrite Split_cons_sep. now rewrite IH.
  - rewrite trimRightByte_cons_other by assumption.
    destruct (Split_cons_other a s Hne) as (h & t & E1 & E2).
    destruct (Split_cons_other a (strings.trimRightByte s c) Hne)
      as (h' & t' & E1' & E2').
    rewrite E2, E2'. rewrite E1, E1' in IH.
    cbn [dropTrailingEmpty] in *.
    destruct (dropTrailingEmpty t) as [|y r].
    + destruct (String.eqb_spec h "") as [->|Hh];
        injection IH as -> ->; reflexivity.
    + injection IH as -> ->. reflexivity.
Qed.

(** Splitting after trimming the left end is splitting, then discarding the
    empty segments at the head. *)
Lemma Split_trimLeftByte (s : string) :
  strings.Split (strings.trimLeftByte s c) c
  = match dropLeadingEmpty (strings.Split s c) with
    | [] => [""]
    | r => r
    end.
Proof.
  induction s as [|a s IH]; [reflexivity|].
  destruct (Ascii.eqb_spec a c) as [->|Hne].
  - rewrite Split_cons_sep. cbn [strings.trimLeftByte dropLeadingEmpty].
    now rewrite Ascii.eqb_refl.
  - cbn [strings.trimLeftByte]. apply Ascii.eqb_neq in Hne as Hb.
    rewrite Hb. apply Ascii.eqb_neq in Hb.
    destruct (Split_cons_other a s Hb) as (h & t & _ & ->). reflexivity.
Qed.

Lemma Split_Trim (s : string) :
  strings.Split (strings.Trim s c) c
  = match dropLeadingEmpty (dropTrailingEmpty (strings.Split s c)) with
    | [] => [""]
    | r => r
    end.
Proof.
  unfold strings.Trim. rewrite Split_trimLeftByte, Split_trimRightByte.
  now destruct (dropTrailingEmpty (strings.Split s c)).
Qed.

End PathFacts.

Section SegmentFacts.

Lemma dropLeadingEmpty_head (l : list string) :
  match dropLeadingEmpty l with
  | [] => True
  | x :: _ => x <> ""
  end.
Proof.
  induction l as [|x l IH]; simpl; [exact I|].
  destruct x; [exact IH | discriminate].
Qed.

Lemma nth_guarded (parts : list string) (i : nat) :
  (if (i <? List.length parts)%nat && negb (String.eqb (nth i parts "") "")
   then nth i parts "" else "")
  = nth i parts "".
Proof.
  destruct (i <? List.length parts)%nat eqn:E; simpl.
  - destruct (String.eqb_spec (nth i parts "") "") as [->|]; reflexivity.
  - apply Nat.ltb_ge in E. now rewrite nth_overflow.
Qed.

Lemma extractResource_segments (path : string) :
  extractResource path = nth 0 (pathSegments path) "".
Proof.
  unfold extractResource. cbv zeta. rewrite nth_guarded, Split_Trim.
  fold (pathSegments path). now destruct (pathSegments path).
Qed.

Lemma extractRecordID_segments (path : string) :
  extractRecordID path = nth 1 (pathSegments path) "".
Proof.
  unfold extractRecordID. cbv zeta. rewrite nth_guarded, Split_Trim.
  fold (pathSegments path). now destruct (pathSegments path).
Qed.

Lemma extractResource_empty (path : string) :
  extractResource path = "" <-> pathSegments path = [].
Proof.
  rewrite extractResource_segments. unfold pathSegments.
  pose proof (dropLeadingEmpty_head
                (dropTrailingEmpty (strings.Split path "/"))) as H.
  destruct (dropLeadingEmpty _) as [|x r]; simpl.
  - tauto.
  - split; [contradiction | discriminate].
Qed.

Lemma extractResource_only_slashes (path : string) :
  extractResource path = "" <-> onlyByte "/" path = true.
Proof.
  rewrite <- Trim_empty. split.
  - intros H. apply extractResource_empty in H.
    pose proof (Split_Trim "/" path) as E. fold (pathSegments path) in E.
    rewrite H in E. now apply Split_singleton_empty in E.
  - intros H. unfold extractResource. now rewrite H.
Qed.

End SegmentFacts.

(** ** The action resolver and its caller *)

(** The methods the switch of the resolver names. *)
Definition supportedMethod (method : string) : Prop :=
method = "GET" \/ method = "POST" \/ method = "PUT" \/ method = "PATCH"
\/ method = "DELETE".

Section Resolver.

Lemma getActionFromMethod_empty (method : string) (hasRecordID : bool) :
  getActionFromMethod method hasRecordID = "" <-> ~ supportedMethod method.
Proof.
  unfold getActionFromMethod, supportedMethod.
  destruct (String.eqb_spec method "GET") as [->|H1].
  { destruct hasRecordID; split; try discriminate; intros H; destruct H; auto. }
  destruct (String.eqb_spec method "POST") as [->|H2].
  { split; [discriminate | intros H; destruct H; auto]. }
  destruct (String.eqb_spec method "PUT") as [->|H3].
  { split; [discriminate | intros H; destruct H; auto]. }
  destruct (String.eqb_spec method "PATCH") as [->|H4].
  { split; [discriminate | intros H; destruct H; auto]. }
  destruct (String.eqb_spec method "DELETE") as [->|H5].
  { split; [discriminate | intros H; destruct H; auto 6]. }
  simpl. split; [intros _; tauto | reflexivity].
Qed.

Lemma getActionFromRequest_method (r : Request) :
  getActionFromRequest r
  = getActionFromMethod (Method r)
      (negb (String.eqb (extractRecordID (URL_Path r)) "")).
Proof. reflexivity. Qed.

Lemma FixedRole_unsupported_method
      (engine : list Permission -> string -> string -> bool)
      (m : FixedRole.Middleware) (r : Request) :
  extractResource (URL_Path r) <> "" ->
  getActionFromMethod (Method r)
    (negb (String.eqb (extractRecordID (URL_Path r)) "")) = "" ->
  FixedRole.ServeHTTP_with engine m r
  = ([], HandlerError StatusMethodNotAllowed (Some "method not allowed")).
Proof.
  intros HR HA. unfold FixedRole.ServeHTTP_with. cbv zeta.
  apply String.eqb_neq in HR. rewrite HR, HA. reflexivity.
Qed.

Lemma ConfiguredRole_unsupported_method
      (TrimSpace : string -> string)
      (engine : list Permission -> string -> string -> bool)
      (m : ConfiguredRole.Middleware) (r : Request)
      (repl : string -> string -> string) :
  Replacer r = Some repl ->
  extractResource (URL_Path r) <> "" ->
  getActionFromRequest r = "" ->
  ConfiguredRole.ServeHTTP_with TrimSpace engine m r
  = ([], HandlerError StatusMethodNotAllowed (Some "method not allowed")).
Proof.
  intros HC HR HA. unfold ConfiguredRole.ServeHTTP_with. cbv zeta.
  apply String.eqb_neq in HR. rewrite HC, HR, HA. reflexivity.
Qed.

Lemma FixedRole_no_resource
      (engine : list Permission -> string -> string -> bool)
      (m : FixedRole.Middleware) (r : Request) :
  extractResource (URL_Path r) = "" ->
  FixedRole.ServeHTTP_with engine m r = ([], NextHandler).
Proof.
  intros HR. unfold FixedRole.ServeHTTP_with. cbv zeta. now rewrite HR.
Qed.

Lemma ConfiguredRole_no_resource
      (TrimSpace : string -> string)
      (engine : list Permission -> string -> string -> bool)
      (m : ConfiguredRole.Middleware) (r : Request)
      (repl : string -> string -> string) :
  Replacer r = Some repl ->
  extractResource (URL_Path r) = "" ->
  ConfiguredRole.ServeHTTP_with TrimSpace engine m r = ([], NextHandler).
Proof.
  intros HC HR. unfold ConfiguredRole.ServeHTTP_with. cbv zeta.
  now rewrite HC, HR.
Qed.

End Resolver.

(** C7.  The action resolver maps [GET] without identifier to ["list"],
    [GET] with an identifier to ["show"], [POST] to ["create"], [PUT] and
    [PATCH] to ["edit"], [DELETE] to ["delete"], and every other method
    ([HEAD] for one) to the empty string.  [getActionFromRequest] is the
    same map, the identifier being the record identifier of the request
    path.  When the resolver hands the empty string to the handler, the
    handler rejects the request with status 405 and no log entry, whatever
    the role table holds and whatever the decision engine would answer: the
    engine is not consulted. *)
Theorem action_resolver_map :
  getActionFromMethod "GET" false = "list"
  /\ getActionFromMethod "GET" true = "show"
  /\ (forall b, getActionFromMethod "POST" b = "create")
  /\ (forall b, getActionFromMethod "PUT" b = "edit")
  /\ (forall b, getActionFromMethod "PATCH" b = "edit")
  /\ (forall b, getActionFromMethod "DELETE" b = "delete")
  /\ (forall b, getActionFromMethod "HEAD" b = "")
  /\ (forall method b,
        getActionFromMethod method b = "" <-> ~ supportedMethod method)
  /\ (forall r,
        getActionFromRequest r
        = getActionFromMethod (Method r)
            (negb (String.eqb (extractRecordID (URL_Path r)) "")))
  /\ (forall engine m r,
        extractResource (URL_Path r) <> "" ->
        ~ supportedMethod (Method r) ->
        FixedRole.ServeHTTP_with engine m r
        = ([], HandlerError StatusMethodNotAllowed
                 (Some "method not allowed")))
  /\ (forall TrimSpace engine m r repl,
        Replacer r = Some repl ->
        extractResource (URL_Path r) <> "" ->
        ~ supportedMethod (Method r) ->
        ConfiguredRole.ServeHTTP_with TrimSpace engine m r
        = ([], HandlerError StatusMethodNotAllowed
                 (Some "method not allowed"))).
Proof.
  do 7 (split; [reflexivity|]).
  split; [exact getActionFromMethod_empty|].
  split; [exact getActionFromRequest_method|].
  split.
  - intros engine m r HR HM. apply FixedRole_unsupported_method;
      [assumption | now apply getActionFromMethod_empty].
  - intros TrimSpace engine m r repl HC HR HM.
    apply (ConfiguredRole_unsupported_method _ _ _ _ repl);
      [assumption.. |].
    rewrite getActionFromRequest_method. now apply getActionFromMethod_empty.
Qed.

(** A [HEAD] request on a record, for a role that may do everything. *)
Definition headRequest : Request :=
{| Method := "HEAD"; URL_Path := "/posts/1";
   Replacer := Some (fun input _ => input) |}.

Definition adminRules : list Permission :=
[ {| Type_ := ""; Resource := "*";
     Action := {| Single := Some "*"; Multiple := None |} |} ].

Definition adminMiddleware : ConfiguredRole.Middleware :=
{| ConfiguredRole.Role := "admin";
   ConfiguredRole.RolesFilePath := "/etc/caddy/roles.json";
   ConfiguredRole.roles := {[ "admin" := adminRules ]} |}.

Example action_resolver_map_witness :
  ConfiguredRole.ServeHTTP (fun s => s) adminMiddleware headRequest
  = ([], HandlerError StatusMethodNotAllowed (Some "method not allowed")).
Proof.
  destruct action_resolver_map as (_ & _ & _ & _ & _ & _ & _ & _ & _ & _ & H).
  apply (H _ _ _ _ (fun input _ => input)).
  - reflexivity.
  - discriminate.
  - unfold supportedMethod. simpl. intuition discriminate.
Defined.

(** C8.  The resource name is the first segment of the path and the record
    identifier the second one (the empty string when there is none or when
    it is empty), the segments being those of the path split on ["/"] once
    the empty segments of leading and trailing separators are discarded;
    further segments are ignored: ["/posts/1/comments"] gives ["posts"] and
    ["1"].  When no segment remains, as for ["/"] and the empty path, the
    resource is empty (which happens exactly for the paths made of ["/"]
    bytes only) and the handler passes the request to the next
    handler, with no log entry, whatever the method, the role table and the
    decision engine. *)
Theorem path_convention :
  (forall path,
      extractResource path = nth 0 (pathSegments path) ""
      /\ extractRecordID path = nth 1 (pathSegments path) "")
  /\ (extractResource "/posts/1/comments" = "posts"
      /\ extractRecordID "/posts/1/comments" = "1")
  /\ (forall path, extractResource path = "" <-> pathSegments path = [])
  /\ (forall path, extractResource path = "" <-> onlyByte "/" path = true)
  /\ (pathSegments "/" = [] /\ pathSegments "" = []
      /\ extractResource "/" = "" /\ extractResource "" = "")
  /\ (forall engine m r,
        extractResource (URL_Path r) = "" ->
        FixedRole.ServeHTTP_with engine m r = ([], NextHandler))
  /\ (forall TrimSpace engine m r repl,
        Replacer r = Some repl ->
        extractResource (URL_Path r) = "" ->
        ConfiguredRole.ServeHTTP_with TrimSpace engine m r
        = ([], NextHandler)).
Proof.
  split.
  { intros path.
    split; [apply extractResource_segments | apply extractRecordID_segments]. }
  split; [split; reflexivity|].
  split; [exact extractResource_empty|].
  split; [exact extractResource_only_slashes|].
  split; [repeat split|].
  split; [exact FixedRole_no_resource | exact ConfiguredRole_no_resource].
Qed.

(** A [DELETE] request on the root path, for a role with no rule at all. *)
Definition rootDelete : Request :=
{| Method := "DELETE"; URL_Path := "/";
   Replacer := Some (fun input _ => input) |}.

Definition guestMiddleware : ConfiguredRole.Middleware :=
{| ConfiguredRole.Role := "guest";
   ConfiguredRole.RolesFilePath := "/etc/caddy/roles.json";
   ConfiguredRole.roles := {[ "guest" := [] ]} |}.

Example path_convention_witness :
  ConfiguredRole.ServeHTTP (fun s => s) guestMiddleware rootDelete
  = ([], NextHandler).
Proof.
  destruct path_convention as (_ & _ & _ & _ & _ & _ & H).
  apply (H _ _ _ _ (fun input _ => input)); reflexivity.
Defined.

(** ** Loading role definitions ([role-definitions.go]) *)

(** A value that [encoding/json] stores in an [interface{}]: [nil], a
    [bool], a [float64] (kept by its IEEE 754 bits), a [string], a
    [[]interface{}] or a [map[string]interface{}]. *)
#[warnings="-register-all"]
Inductive JSONValue :=
| JNull
| JBool (b : bool)
| JNumber (bits : Z)
| JString (s : string)
| JArray (items : list JSONValue)
| JObject (fields : list (string * JSONValue)).

(** A call that returns a value or an error. *)
Inductive result (E A : Type) :=
| Ok (a : A)
| Error (e : E).

Arguments Ok {E A} a.
Arguments Error {E A} e.

(** The loop over the entries of an ["action"] array: the strings are
    appended to a slice that starts nil, the other entries are skipped. *)
Definition stringItems (v : list JSONValue) : option (list string) :=
fold_left
  (fun actions item =>
     match item with
     | JString str =>
         Some (match actions with
               | None => [str]
               | Some l => l ++ [str]
               end)
     | _ => actions
     end)
  v None.

(** The body of the loop over the rule objects of a role. *)
Definition convertPermission (perm : gmap string JSONValue) : Permission :=
{| Type_ := match perm !! "type" with
            | Some (JString t) => t
            | _ => ""
            end;
   Resource := match perm !! "resource" with
               | Some (JString r) => r
               | _ => ""
               end;
   Action := match perm !! "action" with
             | Some (JString v) => {| Single := Some v; Multiple := None |}
             | Some (JArray v) =>
                 {| Single := None; Multiple := stringItems v |}
             | _ => {| Single := None; Multiple := None |}
             end |}.

(** The loop over the roles of the decoded map: each role name is bound to
    its converted rules. *)
Definition convertRoles (raw : gmap string (list (gmap string JSONValue)))
  : gmap string (list Permission) :=
map_fold
  (fun roleName permissions rd =>
     <[roleName := map convertPermission permissions]> rd)
  ∅ raw.

Section Parser.

(** [json.Unmarshal] into a [map[string][]map[string]interface{}], with the
    errors it returns. *)
Variable error : Type.
Variable json_Unmarshal :
  string -> result error (gmap string (list (gmap string JSONValue))).

Definition UnmarshalJSON (data : string)
  : result error (gmap string (list Permission)) :=
match json_Unmarshal data with
| Error err => Error err
| Ok raw => Ok (convertRoles raw)
end.

End Parser.

(** How the engine reads the type of a rule: ["deny"], or anything else. *)
Definition effectiveType (t : string) : string :=
if String.eqb t "deny" then "deny" else "allow".

Definition withEffectiveType (p : Permission) : Permission :=
{| Type_ := effectiveType (Type_ p);
   Action := Action p;
   Resource := Resource p |}.

(** The strings among the entries of an array, in order. *)
Fixpoint stringsOf (v : list JSONValue) : list string :=
match v with
| [] => []
| JString str :: v' => str :: stringsOf v'
| _ :: v' => stringsOf v'
end.

Section ParserFacts.

Lemma convertRoles_lookup
      (raw : gmap string (list (gmap string JSONValue))) (roleName : string) :
  convertRoles raw !! roleName = map convertPermission <$> raw !! roleName.
Proof.
  unfold convertRoles.
  apply (map_fold_weak_ind
           (fun rd raw' =>
              rd !! roleName = map convertPermission <$> raw' !! roleName)).
  - now rewrite !lookup_empty.
  - intros k perms m rd Hk IH.
    destruct (decide (k = roleName)) as [->|Hne].
    + now rewrite !lookup_insert_eq.
    + now rewrite !lookup_insert_ne.
Qed.

Lemma stringItems_acc (v : list JSONValue) (acc : option (list string)) :
  fold_left
    (fun actions item =>
       match item with
       | JString str =>
           Some (match actions with
                 | None => [str]
                 | Some l => l ++ [str]
                 end)
       | _ => actions
       end)
    v acc
  = match acc, stringsOf v with
    | None, [] => None
    | None, l => Some l
    | Some a, l => Some (a ++ l)
    end.
Proof.
  revert acc. induction v as [|item v IH]; intros acc.
  - destruct acc as [a|]; simpl; [now rewrite app_nil_r | reflexivity].
  - destruct item; simpl; rewrite IH; try reflexivity.
    destruct acc as [a|]; simpl.
    + now rewrite <- app_assoc.
    + reflexivity.
Qed.

Lemma stringItems_stringsOf (v : list JSONValue) :
  stringItems v = match stringsOf v with [] => None | l => Some l end.
Proof. unfold stringItems. now rewrite stringItems_acc. Qed.

Lemma existsb_map_ext {A B : Type} (f : B -> bool) (h : A -> bool)
      (g : A -> B) (l : list A) :
  (forall x, f (g x) = h x) -> existsb f (map g l) = existsb h l.
Proof.
  intros E. induction l as [|x l IH]; simpl; [reflexivity|].
  now rewrite E, IH.
Qed.

Lemma effectiveType_deny (t : string) :
  String.eqb (effectiveType t) "deny" = String.eqb t "deny".
Proof. unfold effectiveType. now destruct (String.eqb_spec t "deny"). Qed.

Lemma canAccess_effectiveType
      (rules : list Permission) (action resource : string) :
  canAccessWithPermissions (map withEffectiveType rules) action resource
  = canAccessWithPermissions rules action resource.
Proof.
  unfold canAccessWithPermissions. rewrite length_map.
  rewrite (existsb_map_ext _
             (fun permission =>
                String.eqb (Type_ permission) "deny"
                && matchTarget permission resource action))
    by (intros p; simpl; now rewrite effectiveType_deny).
  rewrite (existsb_map_ext _
             (fun permission =>
                negb (String.eqb (Type_ permission) "deny")
                && matchTarget permission resource action))
    by (intros p; simpl; now rewrite effectiveType_deny).
  reflexivity.
Qed.

(** What the conversion stores as an action is a single string or a list,
    not both. *)
Lemma convertPermission_singleOrList (perm : gmap string JSONValue) :
  singleOrList (Action (convertPermission perm)).
Proof.
  unfold singleOrList, convertPermission. simpl.
  destruct (perm !! "action") as [[| | | | |]|]; simpl; tauto.
Qed.

End ParserFacts.

Arguments UnmarshalJSON {error} json_Unmarshal data.

(** C9.  [UnmarshalJSON] returns an error exactly when decoding the input
    into the map from role names to lists of rule objects fails, and the
    error is that of the decoder.  Every decoded map is accepted, whatever
    its rule objects hold: each role is bound to the conversion of its rule
    objects; a rule object without a type or without a resource gives the
    empty string for it; the entries of an action list that are not strings
    are skipped, and a list without any string leaves the action unset.
    The engine reads every type other than ["deny"], the missing one
    included, as it reads ["allow"].  A rule converted from an empty action
    list matches no requested action other than the empty string and
    ["*"]. *)
Theorem UnmarshalJSON_fails_only_on_decoding :
  forall (error : Type)
         (json_Unmarshal :
            string -> result error (gmap string (list (gmap string JSONValue)))),
    (forall data err,
        UnmarshalJSON json_Unmarshal data = Error err
        <-> json_Unmarshal data = Error err)
    /\ (forall data raw,
          json_Unmarshal data = Ok raw ->
          UnmarshalJSON json_Unmarshal data = Ok (convertRoles raw)
          /\ forall roleName,
               convertRoles raw !! roleName
               = map convertPermission <$> raw !! roleName)
    /\ (forall perm,
          perm !! "type" = None -> Type_ (convertPermission perm) = "")
    /\ (forall perm,
          perm !! "resource" = None -> Resource (convertPermission perm) = "")
    /\ (forall perm items,
          perm !! "action" = Some (JArray items) ->
          Action (convertPermission perm)
          = {| Single := None;
               Multiple := match stringsOf items with
                           | [] => None
                           | l => Some l
                           end |})
    /\ (effectiveType "" = "allow"
        /\ forall rules action resource,
             canAccessWithPermissions (map withEffectiveType rules)
                                      action resource
             = canAccessWithPermissions rules action resource)
    /\ (forall perm resource action,
          perm !! "action" = Some (JArray []) ->
          action <> "" -> action <> "*" ->
          matchTarget (convertPermission perm) resource action = false).
Proof.
  intros error json_Unmarshal.
  split.
  { intros data err. unfold UnmarshalJSON.
    destruct (json_Unmarshal data) as [raw|e]; split; congruence. }
  split.
  { intros data raw H. unfold UnmarshalJSON. rewrite H.
    split; [reflexivity | apply convertRoles_lookup]. }
  split; [intros perm H; unfold convertPermission; simpl; now rewrite H|].
  split; [intros perm H; unfold convertPermission; simpl; now rewrite H|].
  split.
  { intros perm items H. unfold convertPermission. simpl. rewrite H.
    now rewrite stringItems_stringsOf. }
  split; [split; [reflexivity | exact canAccess_effectiveType]|].
  intros perm resource action H H1 H2.
  apply matchTarget_no_action; try assumption;
    unfold convertPermission; simpl; now rewrite H.
Qed.

(** A rule object with an empty action list and no type. *)
Definition emptyActionRule : gmap string JSONValue :=
{[ "resource" := JString "posts"; "action" := JArray [] ]}.

Example UnmarshalJSON_fails_only_on_decoding_witness :
  matchTarget (convertPermission emptyActionRule) "posts" "list" = false.
Proof.
  destruct (UnmarshalJSON_fails_only_on_decoding
              string (fun _ => Ok ∅)) as (_ & _ & _ & _ & _ & _ & H).
  apply H; [vm_compute; reflexivity | discriminate | discriminate].
Defined.

(** ** The handler on the sample role table *)

(** The rules of the role ["guest"] in the sample [roles.json]. *)
Definition guestRules : list Permission :=
[ {| Type_ := ""; Resource := "posts";
     Action := {| Single := None; Multiple := Some ["list"] |} |};
  {| Type_ := ""; Resource := "posts.*";
     Action := {| Single := Some "read"; Multiple := None |} |};
  {| Type_ := "deny"; Resource := "posts.views";
     Action := {| Single := Some "read"; Multiple := None |} |};
  {| Type_ := "deny"; Resource := "posts.average_note";
     Action := {| Single := Some "read"; Multiple := None |} |} ].

Definition sampleMiddleware : ConfiguredRole.Middleware :=
{| ConfiguredRole.Role := "guest";
   ConfiguredRole.RolesFilePath := "/etc/caddy/roles.json";
   ConfiguredRole.roles := {[ "guest" := guestRules; "admin" := adminRules ]} |}.

Definition sampleRequest (method path : string) : Request :=
{| Method := method; URL_Path := path;
   Replacer := Some (fun input _ => input) |}.

Example guest_lists_posts :
  ConfiguredRole.ServeHTTP (fun s => s) sampleMiddleware
    (sampleRequest "GET" "/posts/")
  = ([LogInfo "Access granted"
        [("role", "guest"); ("action", "list"); ("resource", "posts")]],
     NextHandler).
Proof. vm_compute. reflexivity. Qed.

Example guest_cannot_show_post :
  ConfiguredRole.ServeHTTP (fun s => s) sampleMiddleware
    (sampleRequest "GET" "/posts/1")
  = ([LogInfo "Access denied"
        [("role", "guest"); ("action", "show"); ("resource", "posts")]],
     HandlerError StatusForbidden (Some "access denied")).
Proof. vm_compute. reflexivity. Qed.

Example request_without_replacer :
  ConfiguredRole.ServeHTTP (fun s => s) sampleMiddleware
    {| Method := "GET"; URL_Path := "/"; Replacer := None |}
  = ([], HandlerError StatusInternalServerError None).
Proof. reflexivity. Qed.

(** * Further properties of the code *)

(** ** The shape of what the path functions extract *)

(** The byte [c] occurs in the string. *)
Fixpoint containsByte (c : ascii) (s : string) : bool :=
match s with
| EmptyString => false
| String a s' => Ascii.eqb a c || containsByte c s'
end.

Section PathShape.

Variable c : ascii.

Lemma Split_segments_no_sep (s : string) :
  Forall (fun seg => containsByte c seg = false) (strings.Split s c).
Proof.
  induction s as [|a s IH]; [repeat constructor|].
  destruct (Ascii.eqb_spec a c) as [->|Hne].
  - rewrite Split_cons_sep. constructor; [reflexivity | exact IH].
  - destruct (Split_cons_other c a s Hne) as (h & t & E1 & E2).
    rewrite E2. rewrite E1 in IH. inversion IH as [|? ? Hh Ht]; subst.
    constructor; [|assumption]. simpl.
    apply Ascii.eqb_neq in Hne. now rewrite Hne.
Qed.

Lemma Forall_nth_default {A : Type} (P : A -> Prop) (l : list A)
      (i : nat) (d : A) :
  Forall P l -> P d -> P (nth i l d).
Proof.
  intros Hl Hd. revert i. induction Hl as [|x l Hx Hl IH]; intros [|i];
    simpl; auto.
Qed.

Lemma Split_app_sep (seg s : string) :
  containsByte c seg = false ->
  strings.Split (seg +:+ String c s) c = seg :: strings.Split s c.
Proof.
  induction seg as [|a seg IH]; intros H.
  - apply Split_cons_sep.
  - simpl in H. apply orb_false_iff in H as [Ha Hs].
    change (String a seg +:+ String c s)
      with (String a (seg +:+ String c s)).
    cbn [strings.Split]. rewrite Ha, (IH Hs). reflexivity.
Qed.

Lemma Split_no_sep (seg : string) :
  containsByte c seg = false -> strings.Split seg c = [seg].
Proof.
  induction seg as [|a seg IH]; intros H; [reflexivity|].
  simpl in H. apply orb_false_iff in H as [Ha Hs].
  cbn [strings.Split]. rewrite Ha, (IH Hs). reflexivity.
Qed.

Lemma Trim_cons_sep (s : string) :
  strings.Trim (String c s) c = strings.Trim s c.
Proof.
  unfold strings.Trim. cbn [strings.trimRightByte].
  rewrite Ascii.eqb_refl.
  destruct (strings.trimRightByte s c) as [|b r] eqn:E; [reflexivity|].
  cbn [strings.trimLeftByte]. now rewrite Ascii.eqb_refl.
Qed.

Lemma trimRightByte_app_sep (s : string) :
  strings.trimRightByte (s +:+ String c "") c = strings.trimRightByte s c.
Proof.
  induction s as [|a s IH].
  - simpl. now rewrite Ascii.eqb_refl.
  - change (String a s +:+ String c "") with (String a (s +:+ String c "")).
    cbn [strings.trimRightByte]. now rewrite IH.
Qed.

Lemma Trim_app_sep (s : string) :
  strings.Trim (s +:+ String c "") c = strings.Trim s c.
Proof. unfold strings.Trim. now rewrite trimRightByte_app_sep. Qed.

End PathShape.

Section SegmentShape.

Lemma dropTrailingEmpty_cons_nonempty (x : string) (l : list string) :
  x <> "" -> dropTrailingEmpty (x :: l) = x :: dropTrailingEmpty l.
Proof.
  intros Hx. simpl. destruct (dropTrailingEmpty l); [|reflexivity].
  now destruct (String.eqb_spec x "").
Qed.

Lemma dropTrailingEmpty_cons_kept (y : string) (l : list string) :
  dropTrailingEmpty l <> [] ->
  dropTrailingEmpty (y :: l) = y :: dropTrailingEmpty l.
Proof.
  intros Hl. simpl. now destruct (dropTrailingEmpty l).
Qed.

Lemma dropTrailingEmpty_cons_empty_head (l : list string) :
  nth 0 (dropTrailingEmpty ("" :: l)) "" = "".
Proof. simpl. now destruct (dropTrailingEmpty l). Qed.

(** The segments of ["/" ++ seg ++ tail], for a first segment that is not
    empty, begin with this segment. *)
Lemma pathSegments_first (seg : string) (tail : list string) (path : string) :
  seg <> "" ->
  strings.Split path "/" = "" :: seg :: tail ->
  pathSegments path = seg :: dropTrailingEmpty tail.
Proof.
  intros Hseg E. unfold pathSegments. rewrite E.
  rewrite dropTrailingEmpty_cons_kept.
  - rewrite dropTrailingEmpty_cons_nonempty by assumption.
    simpl. now destruct seg.
  - rewrite dropTrailingEmpty_cons_nonempty by assumption. discriminate.
Qed.

End SegmentShape.

(** X1.  What [extractResource] and [extractRecordID] return never holds a
    ["/"] byte, and a path that has a record identifier has a resource. *)
Theorem extracted_names_are_segments :
  forall path,
    containsByte "/" (extractResource path) = false
    /\ containsByte "/" (extractRecordID path) = false
    /\ (extractRecordID path <> "" -> extractResource path <> "").
Proof.
  intros path.
  assert (forall i,
             containsByte "/"
               (nth i (strings.Split (strings.Trim path "/") "/") "") = false)
    as Hnth.
  { intros i. apply (Forall_nth_default
                       (fun seg => containsByte "/" seg = false));
      [apply Split_segments_no_sep | reflexivity]. }
  split; [|split].
  - unfold extractResource. cbv zeta. rewrite nth_guarded. apply Hnth.
  - unfold extractRecordID. cbv zeta. rewrite nth_guarded. apply Hnth.
  - rewrite extractRecordID_segments. intros Hid Hres.
    apply extractResource_empty in Hres. rewrite Hres in Hid.
    now apply Hid.
Qed.

(** X2.  One more ["/"] at the head or at the end of a path changes
    neither the resource nor the record identifier. *)
Theorem extraction_ignores_outer_slashes :
  forall path,
    extractResource ("/" +:+ path) = extractResource path
    /\ extractResource (path +:+ "/") = extractResource path
    /\ extractRecordID ("/" +:+ path) = extractRecordID path
    /\ extractRecordID (path +:+ "/") = extractRecordID path.
Proof.
  intros path. unfold extractResource, extractRecordID. cbv zeta.
  change ("/" +:+ path) with (String "/" path).
  now rewrite Trim_cons_sep, Trim_app_sep.
Qed.

(** X3.  A path built from a resource name and a record identifier gives
    them back: for names without ["/"] that are not empty,
    ["/" ++ res] has resource [res] and no identifier, and
    ["/" ++ res ++ "/" ++ id], followed or not by ["/"] and anything more,
    has resource [res] and identifier [id]. *)
Theorem extraction_of_built_path :
  forall res id rest,
    containsByte "/" res = false -> res <> "" ->
    containsByte "/" id = false -> id <> "" ->
    (extractResource ("/" +:+ res) = res
     /\ extractRecordID ("/" +:+ res) = "")
    /\ (extractResource ("/" +:+ res +:+ "/" +:+ id) = res
        /\ extractRecordID ("/" +:+ res +:+ "/" +:+ id) = id)
    /\ (extractResource ("/" +:+ res +:+ "/" +:+ id +:+ "/" +:+ rest) = res
        /\ extractRecordID ("/" +:+ res +:+ "/" +:+ id +:+ "/" +:+ rest)
           = id).
Proof.
  intros res id rest Hres Hres' Hid Hid'.
  rewrite !extractResource_segments, !extractRecordID_segments.
  assert (pathSegments ("/" +:+ res) = [res]) as ->.
  { apply (pathSegments_first res []); [assumption|].
    change ("/" +:+ res) with (String "/" res).
    now rewrite Split_cons_sep, Split_no_sep. }
  assert (pathSegments ("/" +:+ res +:+ "/" +:+ id) = [res; id]) as ->.
  { rewrite (pathSegments_first res [id]); [|assumption|].
    - now rewrite dropTrailingEmpty_cons_nonempty.
    - change ("/" +:+ res +:+ "/" +:+ id)
        with (String "/" (res +:+ String "/" id)).
      now rewrite Split_cons_sep, Split_app_sep, Split_no_sep. }
  assert (pathSegments ("/" +:+ res +:+ "/" +:+ id +:+ "/" +:+ rest)
          = res :: id :: dropTrailingEmpty (strings.Split rest "/")) as ->.
  { rewrite (pathSegments_first res (id :: strings.Split rest "/"));
      [|assumption|].
    - now rewrite dropTrailingEmpty_cons_nonempty.
    - change ("/" +:+ res +:+ "/" +:+ id +:+ "/" +:+ rest)
        with (String "/" (res +:+ String "/" (id +:+ String "/" rest))).
      now rewrite Split_cons_sep, !Split_app_sep. }
  repeat split.
Qed.

Example extraction_of_built_path_witness :
  extractResource "/comments/42/edit" = "comments"
  /\ extractRecordID "/comments/42/edit" = "42".
Proof.
  apply (extraction_of_built_path "comments" "42" "edit");
    (reflexivity || discriminate).
Defined.

(** X4.  An empty second segment hides what follows it: for a resource
    name without ["/"] that is not empty, the path
    ["/" ++ res ++ "//" ++ rest] has resource [res] and no record
    identifier, so that a [GET] request on it is resolved to ["list"]. *)
Theorem double_slash_hides_identifier :
  forall res rest repl,
    containsByte "/" res = false -> res <> "" ->
    extractResource ("/" +:+ res +:+ "//" +:+ rest) = res
    /\ extractRecordID ("/" +:+ res +:+ "//" +:+ rest) = ""
    /\ getActionFromRequest
         {| Method := "GET"; URL_Path := "/" +:+ res +:+ "//" +:+ rest;
            Replacer := repl |} = "list".
Proof.
  intros res rest repl Hres Hres'.
  assert (pathSegments ("/" +:+ res +:+ "//" +:+ rest)
          = res :: dropTrailingEmpty ("" :: strings.Split rest "/")) as Hseg.
  { apply pathSegments_first; [assumption|].
    change ("/" +:+ res +:+ "//" +:+ rest)
      with (String "/" (res +:+ String "/" (String "/" rest))).
    now rewrite Split_cons_sep, Split_app_sep, Split_cons_sep. }
  assert (extractRecordID ("/" +:+ res +:+ "//" +:+ rest) = "") as Hid.
  { rewrite extractRecordID_segments, Hseg.
    apply dropTrailingEmpty_cons_empty_head. }
  split; [|split].
  - now rewrite extractResource_segments, Hseg.
  - exact Hid.
  - rewrite getActionFromRequest_method. cbn [Method URL_Path].
    now rewrite Hid.
Qed.

Example double_slash_hides_identifier_witness :
  extractRecordID "/posts//1" = ""
  /\ getActionFromRequest
       {| Method := "GET"; URL_Path := "/posts//1"; Replacer := None |}
     = "list".
Proof.
  destruct (double_slash_hides_identifier "posts" "1" None)
    as (_ & H1 & H2); [reflexivity | discriminate |].
  split; [exact H1 | exact H2].
Defined.

(** ** Laws of the decision engine *)

(** The identifiers [matchTarget] compares a requested action with: those of
    the list when it is not nil, else the single string when there is
    one. *)
Definition effectiveActions (a : ActionType) : list string :=
match Multiple a with
| Some l => l
| None => match Single a with
          | Some s => [s]
          | None => []
          end
end.

Section EngineLaws.

Implicit Types (rules : list Permission) (action resource : string).

Lemma bool_eq_of_true_iff (b1 b2 : bool) :
  (b1 = true <-> b2 = true) -> b1 = b2.
Proof. destruct b1, b2; intuition congruence. Qed.

Lemma canAccess_same_members rules rules' action resource :
  (forall p, In p rules <-> In p rules') ->
  canAccessWithPermissions rules action resource
  = canAccessWithPermissions rules' action resource.
Proof.
  intros Hmem. apply bool_eq_of_true_iff. rewrite !canAccess_true.
  split; intros [(p & Hp & Ha) Hno]; (split;
    [exists p; split; [now apply Hmem | assumption]
    |intros (d & Hd & Hdd); apply Hno; exists d;
     split; [now apply Hmem | assumption]]).
Qed.

Lemma canAccess_app_true (l1 l2 : list Permission) action resource :
  canAccessWithPermissions (l1 ++ l2) action resource = true
  <-> (canAccessWithPermissions l1 action resource = true
       \/ canAccessWithPermissions l2 action resource = true)
      /\ ~ (exists d, In d (l1 ++ l2) /\ denies d action resource).
Proof.
  rewrite !canAccess_true. split.
  - intros [(p & Hp & Ha) Hno]. split; [|assumption].
    apply in_app_iff in Hp as [Hp|Hp]; [left | right];
      (split; [now exists p|]); intros (d & Hd & Hdd); apply Hno;
      exists d; (split; [|assumption]); apply in_app_iff; tauto.
  - intros [[[(p & Hp & Ha) _]|[(p & Hp & Ha) _]] Hno];
      (split; [|assumption]); exists p; (split; [|assumption]);
      apply in_app_iff; tauto.
Qed.

Lemma matchTarget_generic_eq (p : Permission) resource :
  matchTarget p resource "" = matchWildcard (Resource p) resource
  /\ matchTarget p resource "*" = matchWildcard (Resource p) resource.
Proof.
  unfold matchTarget.
  now destruct (matchWildcard (Resource p) resource).
Qed.

Lemma matchTarget_effective (p : Permission) resource action :
  action <> "" -> action <> "*" ->
  matchTarget p resource action = true
  <-> matchWildcard (Resource p) resource = true
      /\ (In "*" (effectiveActions (Action p))
          \/ In action (effectiveActions (Action p))).
Proof.
  intros H1 H2. split.
  - intros H. pose proof (matchTarget_resource _ _ _ H) as HR.
    split; [assumption|].
    rewrite matchTarget_specific in H by assumption.
    unfold effectiveActions.
    destruct (Multiple (Action p)) as [l|]; [now apply existsb_action|].
    destruct (Single (Action p)) as [s|]; [|discriminate].
    apply orb_true_iff in H as [H|H]; apply String.eqb_eq in H; subst;
      simpl; tauto.
  - intros [HR H]. rewrite matchTarget_specific by assumption.
    unfold effectiveActions in H.
    destruct (Multiple (Action p)) as [l|]; [now apply existsb_action|].
    destruct (Single (Action p)) as [s|]; simpl in H; [|tauto].
    apply orb_true_iff. rewrite !String.eqb_eq. intuition.
Qed.

End EngineLaws.

(** X5.  The decision depends on the set of rules only: two rule lists with
    the same members give the same decision, so that a repeated rule
    changes nothing. *)
Theorem canAccess_depends_on_rule_set :
  forall rules rules' action resource,
    (forall p, In p rules <-> In p rules') ->
    canAccessWithPermissions rules action resource
    = canAccessWithPermissions rules' action resource.
Proof. exact canAccess_same_members. Qed.

Example canAccess_depends_on_rule_set_witness :
  canAccessWithPermissions
    [allowListPosts; denyPostsNoAction; allowListPosts] "list" "posts"
  = canAccessWithPermissions
      [denyPostsNoAction; allowListPosts] "list" "posts".
Proof.
  apply canAccess_depends_on_rule_set. intros p. simpl. tauto.
Defined.

(** X6.  Rules act in one direction each: taking a deny rule out of a list
    never turns a granted request into a refused one, and putting a rule
    that is not a deny rule into a list never does either. *)
Theorem canAccess_monotone :
  forall l1 l2 p action resource,
    (Type_ p = "deny" ->
     canAccessWithPermissions (l1 ++ p :: l2) action resource = true ->
     canAccessWithPermissions (l1 ++ l2) action resource = true)
    /\ (Type_ p <> "deny" ->
        canAccessWithPermissions (l1 ++ l2) action resource = true ->
        canAccessWithPermissions (l1 ++ p :: l2) action resource = true).
Proof.
  intros l1 l2 p action resource.
  assert (forall q, In q (l1 ++ p :: l2) <-> q = p \/ In q (l1 ++ l2)) as Hin.
  { intros q. rewrite !in_app_iff. simpl. intuition. }
  split; intros HT; rewrite !canAccess_true; intros [(q & Hq & Ha) Hno].
  - split.
    + exists q. split; [|assumption].
      apply Hin in Hq as [->|Hq]; [|assumption].
      destruct Ha as [Ha _]. contradiction.
    + intros (d & Hd & Hdd). apply Hno. exists d.
      split; [apply Hin; now right | assumption].
  - split.
    + exists q. split; [apply Hin; now right | assumption].
    + intros (d & Hd & Hdd). apply Hin in Hd as [->|Hd].
      * destruct Hdd as [Hdd _]. contradiction.
      * apply Hno. now exists d.
Qed.

Example canAccess_monotone_witness :
  canAccessWithPermissions [allowListPosts] "list" "posts" = true.
Proof.
  apply (proj1 (canAccess_monotone [allowListPosts] []
                  {| Type_ := "deny"; Resource := "comments";
                     Action := {| Single := Some "*"; Multiple := None |} |}
                  "list" "posts")); reflexivity.
Defined.

(** X7.  Two rule lists put end to end grant a request exactly when one of
    them grants it and no deny rule of either matches it. *)
Theorem canAccess_of_concatenation :
  forall l1 l2 action resource,
    canAccessWithPermissions (l1 ++ l2) action resource = true
    <-> (canAccessWithPermissions l1 action resource = true
         \/ canAccessWithPermissions l2 action resource = true)
        /\ ~ (exists d, In d (l1 ++ l2) /\ Type_ d = "deny"
                        /\ matchTarget d resource action = true).
Proof. exact canAccess_app_true. Qed.

(** X8.  A rule list that holds deny rules only refuses every request, and
    a list of one rule grants a request exactly when this rule is not a
    deny rule and matches. *)
Theorem canAccess_without_allow_rule :
  (forall rules action resource,
      (forall p, In p rules -> Type_ p = "deny") ->
      canAccessWithPermissions rules action resource = false)
  /\ (forall p action resource,
        canAccessWithPermissions [p] action resource
        = negb (String.eqb (Type_ p) "deny") && matchTarget p resource action).
Proof.
  split.
  - intros rules action resource Hall.
    destruct (canAccessWithPermissions rules action resource) eqn:E;
      [|reflexivity].
    apply canAccess_true in E as [(p & Hp & Hn & _) _].
    now destruct Hn; apply Hall.
  - intros p action resource. unfold canAccessWithPermissions. simpl.
    rewrite !orb_false_r.
    destruct (String.eqb (Type_ p) "deny"), (matchTarget p resource action);
      reflexivity.
Qed.

Example canAccess_without_allow_rule_witness :
  canAccessWithPermissions [denyPostsNoAction] "" "posts" = false.
Proof.
  apply (proj1 canAccess_without_allow_rule).
  intros p [<-|[]]. reflexivity.
Defined.

(** X9.  The generic query (the empty string or ["*"] as requested action)
    looks at resource patterns only: both forms give the same decision,
    which is true exactly when some rule that is not a deny rule has a
    pattern matching the resource and no deny rule has one, whatever the
    actions of the rules are. *)
Theorem canAccess_generic_query :
  forall rules resource,
    canAccessWithPermissions rules "" resource
    = canAccessWithPermissions rules "*" resource
    /\ (canAccessWithPermissions rules "" resource = true
        <-> (exists p, In p rules /\ Type_ p <> "deny"
                       /\ matchWildcard (Resource p) resource = true)
            /\ ~ (exists d, In d rules /\ Type_ d = "deny"
                            /\ matchWildcard (Resource d) resource = true)).
Proof.
  intros rules resource. split.
  - apply bool_eq_of_true_iff. rewrite !canAccess_true. unfold allows, denies.
    split; intros [(p & Hp & Hn & Hm) Hno]; (split;
      [exists p; repeat split; try assumption;
       destruct (matchTarget_generic_eq p resource) as [E1 E2]; congruence
      |intros (d & Hd & Hdn & Hdm); apply Hno; exists d;
       repeat split; try assumption;
       destruct (matchTarget_generic_eq d resource) as [E1 E2]; congruence]).
  - rewrite canAccess_true. unfold allows, denies.
    split; intros [(p & Hp & Hn & Hm) Hno]; (split;
      [exists p; repeat split; try assumption;
       destruct (matchTarget_generic_eq p resource) as [E1 E2]; congruence
      |intros (d & Hd & Hdn & Hdm); apply Hno; exists d;
       repeat split; try assumption;
       destruct (matchTarget_generic_eq d resource) as [E1 E2]; congruence]).
Qed.

(** X10.  For a requested action other than the empty string and ["*"], a
    rule matches exactly when its resource pattern matches and ["*"] or the
    action is among the entries of its action list when the list is not
    nil, else is its single string.  A rule that has both a list and a
    single string is matched on the list alone. *)
Theorem matchTarget_list_before_single :
  forall p resource action,
    action <> "" -> action <> "*" ->
    (matchTarget p resource action = true
     <-> matchWildcard (Resource p) resource = true
         /\ (In "*" (effectiveActions (Action p))
             \/ In action (effectiveActions (Action p))))
    /\ (forall l, Multiple (Action p) = Some l ->
                  matchTarget p resource action
                  = matchTarget {| Type_ := Type_ p; Resource := Resource p;
                                   Action := {| Single := None;
                                                Multiple := Some l |} |}
                                resource action).
Proof.
  intros p resource action H1 H2.
  split; [now apply matchTarget_effective|].
  intros l Hl. unfold matchTarget. simpl. now rewrite Hl.
Qed.

Example matchTarget_list_before_single_witness :
  matchTarget {| Type_ := "allow"; Resource := "posts";
                 Action := {| Single := Some "list"; Multiple := Some [] |} |}
              "posts" "list" = false.
Proof.
  rewrite (proj2 (matchTarget_list_before_single
                    {| Type_ := "allow"; Resource := "posts";
                       Action := {| Single := Some "list";
                                    Multiple := Some [] |} |}
                    "posts" "list" ltac:(discriminate) ltac:(discriminate))
             [] eq_refl).
  reflexivity.
Defined.

(** ** More on the matcher, the resolver and the conversion of rules *)

Section MatcherLaws.

Lemma string_append_assoc (a b d : string) :
  (a +:+ b) +:+ d = a +:+ (b +:+ d).
Proof.
  induction a as [|x a IH]; [reflexivity|].
  change (String x ((a +:+ b) +:+ d) = String x (a +:+ (b +:+ d))).
  now rewrite IH.
Qed.

Lemma matchWildcard_empty_pattern (resource : string) :
  matchWildcard "" resource = true <-> resource = "".
Proof.
  unfold matchWildcard. simpl.
  destruct resource; simpl; split; congruence.
Qed.

Lemma matchTarget_empty_pattern (p : Permission) (resource action : string) :
  Resource p = "" -> resource <> "" ->
  matchTarget p resource action = false.
Proof.
  intros Hp Hr. unfold matchTarget. rewrite Hp.
  destruct (matchWildcard "" resource) eqn:E; [|reflexivity].
  now apply matchWildcard_empty_pattern in E.
Qed.

Lemma stringsOf_nil_or_cons (items : list JSONValue) :
  match stringsOf items with [] => None | l => Some l end
  <> Some ([] : list string).
Proof. destruct (stringsOf items); discriminate. Qed.

End MatcherLaws.

(** X11.  The empty pattern matches the empty resource only.  Hence a rule
    object whose ["resource"] is missing or is not a string gives a rule
    that matches no request for a resource that is not empty, and that has
    no part in the decision on such a request. *)
Theorem rule_without_resource_is_dead :
  (forall resource, matchWildcard "" resource = true <-> resource = "")
  /\ (forall perm l1 l2 action resource,
        (forall s, perm !! "resource" <> Some (JString s)) ->
        resource <> "" ->
        matchTarget (convertPermission perm) resource action = false
        /\ canAccessWithPermissions (l1 ++ convertPermission perm :: l2)
                                    action resource
           = canAccessWithPermissions (l1 ++ l2) action resource).
Proof.
  split; [exact matchWildcard_empty_pattern|].
  intros perm l1 l2 action resource Hperm Hres.
  assert (matchTarget (convertPermission perm) resource action = false) as H.
  { apply matchTarget_empty_pattern; [|assumption].
    unfold convertPermission. simpl.
    destruct (perm !! "resource") as [[| | |s| |]|] eqn:E; try reflexivity.
    now destruct (Hperm s). }
  split; [assumption | now apply canAccess_skip_unmatched].
Qed.

Example rule_without_resource_is_dead_witness :
  canAccessWithPermissions
    [convertPermission {[ "action" := JString "*" ]}] "list" "posts" = false.
Proof.
  destruct rule_without_resource_is_dead as [_ H].
  destruct (H {[ "action" := JString "*" ]} [] [] "list" "posts")
    as [_ E]; [intros s; vm_compute; discriminate | discriminate |].
  exact E.
Defined.

(** X12.  Prefix patterns are ordered: a resource matched by the pattern
    [q ++ q' ++ "*"] is matched by the shorter pattern [q ++ "*"], and
    every resource that extends a matched resource is matched too. *)
Theorem matchWildcard_prefix_order :
  forall q q' resource more,
    matchWildcard ((q +:+ q') +:+ "*") resource = true ->
    matchWildcard (q +:+ "*") resource = true
    /\ matchWildcard ((q +:+ q') +:+ "*") (resource +:+ more) = true.
Proof.
  intros q q' resource more H.
  apply matchWildcard_star_suffix in H as [rest ->]. split.
  - apply matchWildcard_star_suffix. exists (q' +:+ rest).
    apply string_append_assoc.
  - apply matchWildcard_star_suffix. exists (rest +:+ more).
    apply string_append_assoc.
Qed.

Example matchWildcard_prefix_order_witness :
  matchWildcard "po*" "posts.views" = true
  /\ matchWildcard "posts.*" "posts.views.count" = true.
Proof.
  apply (matchWildcard_prefix_order "po" "sts." "posts.views" ".count").
  reflexivity.
Defined.

(** X13.  The resolver read backwards: ["list"] comes from [GET] without a
    record identifier only, ["show"] from [GET] with one, ["create"] from
    [POST], ["edit"] from [PUT] and [PATCH], ["delete"] from [DELETE]; the
    resolver returns nothing else but the empty string, and so never
    ["*"]. *)
Theorem getActionFromMethod_inverse :
  forall method hasRecordID,
    (getActionFromMethod method hasRecordID = "list"
     <-> method = "GET" /\ hasRecordID = false)
    /\ (getActionFromMethod method hasRecordID = "show"
        <-> method = "GET" /\ hasRecordID = true)
    /\ (getActionFromMethod method hasRecordID = "create"
        <-> method = "POST")
    /\ (getActionFromMethod method hasRecordID = "edit"
        <-> method = "PUT" \/ method = "PATCH")
    /\ (getActionFromMethod method hasRecordID = "delete"
        <-> method = "DELETE")
    /\ In (getActionFromMethod method hasRecordID)
          ["list"; "show"; "create"; "edit"; "delete"; ""]
    /\ getActionFromMethod method hasRecordID <> "*".
Proof.
  intros method hasRecordID. unfold getActionFromMethod.
  destruct (String.eqb_spec method "GET") as [->|H1].
  { destruct hasRecordID; simpl; intuition (discriminate || auto). }
  destruct (String.eqb_spec method "POST") as [->|H2].
  { simpl; intuition (discriminate || auto). }
  destruct (String.eqb_spec method "PUT") as [->|H3].
  { simpl; intuition (discriminate || auto). }
  destruct (String.eqb_spec method "PATCH") as [->|H4].
  { simpl; intuition (discriminate || auto). }
  destruct (String.eqb_spec method "DELETE") as [->|H5].
  { simpl; intuition (discriminate || auto 7). }
  simpl; intuition (discriminate || auto 7).
Qed.

(** X14.  What the conversion of a rule object stores as its action is
    nothing, a single string, or a list that is not empty: never both a
    string and a list, and never an empty list.  The single string is the
    ["action"] string of the object; the list holds the strings of the
    ["action"] array, in order.  For such a rule the identifiers compared
    by [matchTarget] are those of its action set. *)
Theorem convertPermission_action_shape :
  forall perm,
    singleOrList (Action (convertPermission perm))
    /\ Multiple (Action (convertPermission perm)) <> Some []
    /\ (forall s, Single (Action (convertPermission perm)) = Some s
                  <-> perm !! "action" = Some (JString s))
    /\ (forall l, Multiple (Action (convertPermission perm)) = Some l
                  <-> l <> [] /\ exists items,
                        perm !! "action" = Some (JArray items)
                        /\ l = stringsOf items)
    /\ effectiveActions (Action (convertPermission perm))
       = actionSet (Action (convertPermission perm)).
Proof.
  intros perm. unfold convertPermission, singleOrList, effectiveActions,
    actionSet. simpl.
  destruct (perm !! "action") as [[| | |s|items|]|] eqn:E; simpl;
    try (repeat split; try tauto; try discriminate;
         try (intros [_ (items & Hi & _)]; discriminate);
         try (intros H; injection H as ->; reflexivity);
         try (intros H; now rewrite H); fail).
  rewrite stringItems_stringsOf.
  split; [now left|]. split; [apply stringsOf_nil_or_cons|].
  split; [split; discriminate|]. split.
  - intros l. destruct (stringsOf items) as [|x t] eqn:ES.
    + split; [discriminate|]. intros [Hl (items' & Hi & ->)].
      injection Hi as <-. now rewrite ES in Hl.
    + split.
      * intros H. injection H as <-. split; [discriminate|].
        exists items. now rewrite ES.
      * intros [_ (items' & Hi & ->)]. injection Hi as <-. now rewrite ES.
  - now destruct (stringsOf items).
Qed.

(** ** What the handler does with a request *)


Section HandlerFacts.

Lemma extractResource_no_sep (path : string) :
  containsByte "/" (extractResource path) = false.
Proof.
  unfold extractResource. cbv zeta. rewrite nth_guarded.
  apply (Forall_nth_default (fun seg => containsByte "/" seg = false));
    [apply Split_segments_no_sep | reflexivity].
Qed.



Lemma classic_supported (method : string) :
  supportedMethod method \/ ~ supportedMethod method.
Proof.
  unfold supportedMethod.
  destruct (String.eqb_spec method "GET"); [tauto|].
  destruct (String.eqb_spec method "POST"); [tauto|].
  destruct (String.eqb_spec method "PUT"); [tauto|].
  destruct (String.eqb_spec method "PATCH"); [tauto|].
  destruct (String.eqb_spec method "DELETE"); tauto.
Qed.

(** The run of the configured-role handler, case by case. *)
Lemma ConfiguredRole_ServeHTTP_cases
      (TrimSpace : string -> string)
      (engine : list Permission -> string -> string -> bool)
      (m : ConfiguredRole.Middleware) (r : Request) :
  let S := ConfiguredRole.ServeHTTP_with TrimSpace engine m r in
  let resource := extractResource (URL_Path r) in
  let action := getActionFromRequest r in
  (Replacer r = None
   /\ S = ([], HandlerError StatusInternalServerError None))
  \/ exists repl,
      Replacer r = Some repl
      /\ let role := TrimSpace (repl (ConfiguredRole.Role m) "") in
         ((resource = "" /\ S = ([], NextHandler))
          \/ (resource <> "" /\ action = ""
              /\ S = ([], HandlerError StatusMethodNotAllowed
                            (Some "method not allowed")))
          \/ (resource <> "" /\ action <> "" /\ role = ""
              /\ S = ([], HandlerError StatusMethodNotAllowed
                            (Some "role not defined")))
          \/ (resource <> "" /\ action <> "" /\ role <> ""
              /\ ConfiguredRole.roles m !! role = None
              /\ S = ([LogWarn "Role not found" [("role", role)]],
                      HandlerError StatusForbidden
                        (Some ("role not found: " +:+ role))))
          \/ (exists permissions,
                 resource <> "" /\ action <> "" /\ role <> ""
                 /\ ConfiguredRole.roles m !! role = Some permissions
                 /\ engine permissions action resource = false
                 /\ S = ([LogInfo "Access denied"
                            [("role", role); ("action", action);
                             ("resource", resource)]],
                         HandlerError StatusForbidden (Some "access denied")))
          \/ (exists permissions,
                 resource <> "" /\ action <> "" /\ role <> ""
                 /\ ConfiguredRole.roles m !! role = Some permissions
                 /\ engine permissions action resource = true
                 /\ S = ([LogInfo "Access granted"
                            [("role", role); ("action", action);
                             ("resource", resource)]],
                         NextHandler))).
Proof.
  cbv zeta. unfold ConfiguredRole.ServeHTTP_with.
  destruct (Replacer r) as [repl|]; [right; exists repl | left; tauto].
  split; [reflexivity|]. cbv zeta.
  destruct (String.eqb_spec (extractResource (URL_Path r)) "") as [E|NE];
    [left; tauto | right].
  destruct (String.eqb_spec (getActionFromRequest r) "") as [A|NA];
    [left; tauto | right].
  destruct (String.eqb_spec (TrimSpace (repl (ConfiguredRole.Role m) "")) "")
    as [R|NR]; [left; tauto | right].
  destruct (ConfiguredRole.roles m !! _) as [permissions|] eqn:L;
    [right | left; tauto].
  destruct (engine permissions _ _) eqn:G; simpl;
    [right | left]; exists permissions; tauto.
Qed.

(** The run of the fixed-role handler, case by case. *)
Lemma FixedRole_ServeHTTP_cases
      (engine : list Permission -> string -> string -> bool)
      (m : FixedRole.Middleware) (r : Request) :
  let S := FixedRole.ServeHTTP_with engine m r in
  let resource := extractResource (URL_Path r) in
  let recordID := extractRecordID (URL_Path r) in
  let action :=
    getActionFromMethod (Method r) (negb (String.eqb recordID "")) in
  (resource = "" /\ S = ([], NextHandler))
  \/ (resource <> "" /\ action = ""
      /\ S = ([], HandlerError StatusMethodNotAllowed
                    (Some "method not allowed")))
  \/ (resource <> "" /\ action <> ""
      /\ FixedRole.roles m !! FixedRole.role = None
      /\ snd S = HandlerError StatusForbidden
                   (Some ("role not found: " +:+ FixedRole.role))
      /\ List.length (fst S) = 1)
  \/ (exists permissions,
         resource <> "" /\ action <> ""
         /\ FixedRole.roles m !! FixedRole.role = Some permissions
         /\ engine permissions action resource = false
         /\ snd S = HandlerError StatusForbidden (Some "access denied")
         /\ List.length (fst S) = 1)
  \/ (exists permissions,
         resource <> "" /\ action <> ""
         /\ FixedRole.roles m !! FixedRole.role = Some permissions
         /\ engine permissions action resource = true
         /\ snd S = NextHandler
         /\ List.length (fst S) = 1).
Proof.
  cbv zeta. unfold FixedRole.ServeHTTP_with. cbv zeta.
  destruct (String.eqb_spec (extractResource (URL_Path r)) "") as [E|NE];
    [left; tauto | right].
  destruct (String.eqb_spec
              (getActionFromMethod (Method r)
                 (negb (String.eqb (extractRecordID (URL_Path r)) ""))) "")
    as [A|NA]; [left; tauto | right].
  destruct (FixedRole.roles m !! FixedRole.role) as [permissions|] eqn:L;
    [right | left; tauto].
  destruct (engine permissions _ _) eqn:G; simpl;
    [right | left]; exists permissions; tauto.
Qed.

End HandlerFacts.



(** When the handlers hand a request to the next handler. *)
Lemma handler_passes_cases :
  (forall m r,
      snd (FixedRole.ServeHTTP m r) = NextHandler
      <-> extractResource (URL_Path r) = ""
          \/ exists perms,
              FixedRole.roles m !! FixedRole.role = Some perms
              /\ canAccessWithPermissions perms
                   (getActionFromMethod (Method r)
                      (negb (String.eqb (extractRecordID (URL_Path r)) "")))
                   (extractResource (URL_Path r)) = true
              /\ supportedMethod (Method r))
  /\ (forall TrimSpace m r,
        snd (ConfiguredRole.ServeHTTP TrimSpace m r) = NextHandler
        <-> exists repl,
            Replacer r = Some repl
            /\ (extractResource (URL_Path r) = ""
                \/ exists perms,
                    TrimSpace (repl (ConfiguredRole.Role m) "") <> ""
                    /\ ConfiguredRole.roles m
                       !! TrimSpace (repl (ConfiguredRole.Role m) "")
                       = Some perms
                    /\ canAccessWithPermissions perms
                         (getActionFromRequest r)
                         (extractResource (URL_Path r)) = true
                    /\ supportedMethod (Method r))).
Proof.
  split.
  - intros m r. unfold FixedRole.ServeHTTP.
    pose proof (FixedRole_ServeHTTP_cases canAccessWithPermissions m r) as H.
    cbv zeta in H.
    pose proof (getActionFromMethod_empty (Method r)
                  (negb (String.eqb (extractRecordID (URL_Path r)) "")))
      as Hsup.
    destruct H as [(E & ->)|[(NE & A & ->)|[(NE & NA & L & -> & _)
                  |[(p & NE & NA & L & G & -> & _)
                   |(p & NE & NA & L & G & -> & _)]]]]; simpl.
    + tauto.
    + split; [discriminate|]. intros [E|(p & _ & _ & Hs)];
        [contradiction | now apply Hsup in A].
    + split; [discriminate|]. intros [E|(p & L' & _)];
        [contradiction | congruence].
    + split; [discriminate|]. intros [E|(p' & L' & G' & _)];
        [contradiction | congruence].
    + split; [|reflexivity]. intros _. right. exists p.
      repeat split; try assumption.
      destruct (classic_supported (Method r)) as [Hs|Hs];
        [assumption | now apply Hsup in Hs].
  - intros TrimSpace m r. unfold ConfiguredRole.ServeHTTP.
    pose proof (ConfiguredRole_ServeHTTP_cases TrimSpace
                  canAccessWithPermissions m r) as H.
    cbv zeta in H.
    pose proof (getActionFromMethod_empty (Method r)
                  (negb (String.eqb (extractRecordID (URL_Path r)) "")))
      as Hsup.
    rewrite <- getActionFromRequest_method in Hsup.
    destruct H as [[HR ->]|(repl & HR & H)].
    { simpl. split; [discriminate | intros (x & Hx & _); congruence]. }
    assert (forall x, Replacer r = Some x -> x = repl) as Huniq
      by (intros x Hx; congruence).
    destruct H as [(E & ->)|[(NE & A & ->)|[(NE & NA & R & ->)
                  |[(NE & NA & NR & L & ->)
                   |[(p & NE & NA & NR & L & G & ->)
                    |(p & NE & NA & NR & L & G & ->)]]]]]; simpl.
    + split; [intros _; exists repl; tauto | reflexivity].
    + split; [discriminate|].
      intros (x & Hx & [E|(p & _ & _ & _ & Hs)]);
        [contradiction | now apply Hsup in A].
    + split; [discriminate|].
      intros (x & Hx & [E|(p & NR & _)]); [contradiction|].
      apply Huniq in Hx. subst x. contradiction.
    + split; [discriminate|].
      intros (x & Hx & [E|(p & _ & L' & _)]); [contradiction|].
      apply Huniq in Hx. subst x. congruence.
    + split; [discriminate|].
      intros (x & Hx & [E|(p' & _ & L' & G' & _)]); [contradiction|].
      apply Huniq in Hx. subst x. congruence.
    + split; [|reflexivity]. intros _. exists repl. split; [assumption|].
      right. exists p. repeat split; try assumption.
      destruct (classic_supported (Method r)) as [Hs|Hs];
        [assumption | now apply Hsup in Hs].
Qed.

(** X16.  The handlers hand a request to the next handler in two cases
    only: the path has no resource, or the role is bound in the role table
    and [canAccessWithPermissions] grants the resolved action on the
    resource to its rules.  (The configured-role handler first needs the
    replacer of the request and a resolved role that is not empty.) *)
Theorem handler_passes_iff :
  (forall m r,
      snd (FixedRole.ServeHTTP m r) = NextHandler
      <-> extractResource (URL_Path r) = ""
          \/ exists perms,
              FixedRole.roles m !! FixedRole.role = Some perms
              /\ canAccessWithPermissions perms
                   (getActionFromMethod (Method r)
                      (negb (String.eqb (extractRecordID (URL_Path r)) "")))
                   (extractResource (URL_Path r)) = true
              /\ supportedMethod (Method r))
  /\ (forall TrimSpace m r,
        snd (ConfiguredRole.ServeHTTP TrimSpace m r) = NextHandler
        <-> exists repl,
            Replacer r = Some repl
            /\ (extractResource (URL_Path r) = ""
                \/ exists perms,
                    TrimSpace (repl (ConfiguredRole.Role m) "") <> ""
                    /\ ConfiguredRole.roles m
                       !! TrimSpace (repl (ConfiguredRole.Role m) "")
                       = Some perms
                    /\ canAccessWithPermissions perms
                         (getActionFromRequest r)
                         (extractResource (URL_Path r)) = true
                    /\ supportedMethod (Method r))).
Proof. exact handler_passes_cases. Qed.



(** X18.  The error statuses of the configured-role handler are 403, 405
    and 500.  A request answered with 403 leaves exactly one log entry;
    a request answered with 405 or 500 leaves none; no request leaves more
    than one. *)
Theorem handler_statuses_and_log :
  forall TrimSpace engine m r,
    let S := ConfiguredRole.ServeHTTP_with TrimSpace engine m r in
    (snd S = NextHandler
     \/ exists status err,
         snd S = HandlerError status err /\ In status [403; 405; 500])
    /\ List.length (fst S) <= 1
    /\ (forall err, snd S = HandlerError 403 err -> List.length (fst S) = 1)
    /\ (forall status err,
          snd S = HandlerError status err -> status <> 403 -> fst S = []).
Proof.
  intros TrimSpace engine m r.
  pose proof (ConfiguredRole_ServeHTTP_cases TrimSpace engine m r) as H.
  cbv zeta in *.
  destruct H as [[_ ->]|(repl & _ & H)].
  { simpl. repeat split; try lia; try discriminate.
    right. exists 500, None. simpl. tauto. }
  destruct H as [(_ & ->)|[(_ & _ & ->)|[(_ & _ & _ & ->)
                |[(_ & _ & _ & _ & ->)
                 |[(p & _ & _ & _ & _ & _ & ->)
                  |(p & _ & _ & _ & _ & _ & ->)]]]]]; simpl.
  - repeat split; try lia; try discriminate. now left.
  - repeat split; try lia; try discriminate.
    right. exists 405, (Some "method not allowed"). simpl. tauto.
  - repeat split; try lia; try discriminate.
    right. exists 405, (Some "role not defined"). simpl. tauto.
  - repeat split; try lia.
    + right. eexists 403, _. simpl. split; [reflexivity | tauto].
    + intros status err E Hs. injection E as <- _. now destruct Hs.
  - repeat split; try lia.
    + right. exists 403, (Some "access denied"). simpl. tauto.
    + intros status err E Hs. injection E as <- _. now destruct Hs.
  - repeat split; try lia; try discriminate. now left.
Qed.

(** X19.  The refusals that concern the role, for a request with a
    replacer, a resource and a supported method: a role that resolves to
    the empty string gives 405 ["role not defined"] without log entry; a
    role that is not bound in the role table gives 403
    ["role not found: <role>"] with a warning; a role bound to the empty
    rule list gives 403 ["access denied"] with an information entry. *)
Theorem handler_role_refusals :
  forall TrimSpace m r repl,
    Replacer r = Some repl ->
    extractResource (URL_Path r) <> "" ->
    supportedMethod (Method r) ->
    let role := TrimSpace (repl (ConfiguredRole.Role m) "") in
    (role = "" ->
     ConfiguredRole.ServeHTTP TrimSpace m r
     = ([], HandlerError 405 (Some "role not defined")))
    /\ (role <> "" -> ConfiguredRole.roles m !! role = None ->
        ConfiguredRole.ServeHTTP TrimSpace m r
        = ([LogWarn "Role not found" [("role", role)]],
           HandlerError 403 (Some ("role not found: " +:+ role))))
    /\ (role <> "" -> ConfiguredRole.roles m !! role = Some [] ->
        ConfiguredRole.ServeHTTP TrimSpace m r
        = ([LogInfo "Access denied"
              [("role", role); ("action", getActionFromRequest r);
               ("resource", extractResource (URL_Path r))]],
           HandlerError 403 (Some "access denied"))).
Proof.
  intros TrimSpace m r repl HR NE Hs. cbv zeta.
  assert (getActionFromRequest r <> "") as NA.
  { rewrite getActionFromRequest_method. intros A.
    now apply getActionFromMethod_empty in A. }
  unfold ConfiguredRole.ServeHTTP, ConfiguredRole.ServeHTTP_with.
  rewrite HR. cbv zeta.
  apply String.eqb_neq in NE, NA. rewrite NE, NA.
  repeat split.
  - intros ->. now rewrite String.eqb_refl.
  - intros NR L. apply String.eqb_neq in NR. now rewrite NR, L.
  - intros NR L. apply String.eqb_neq in NR. now rewrite NR, L.
Qed.

Example handler_role_refusals_witness :
  ConfiguredRole.ServeHTTP (fun s => s) guestMiddleware
    (sampleRequest "POST" "/posts")
  = ([LogInfo "Access denied"
        [("role", "guest"); ("action", "create"); ("resource", "posts")]],
     HandlerError 403 (Some "access denied")).
Proof.
  destruct (handler_role_refusals (fun s => s) guestMiddleware
              (sampleRequest "POST" "/posts") (fun input _ => input))
    as (_ & _ & H).
  - reflexivity.
  - discriminate.
  - unfold supportedMethod. simpl. tauto.
  - apply H; [discriminate | vm_compute; reflexivity].
Defined.

(** X20.  The two handlers agree: when the replacer of the request is
    there and the configured role resolves to the constant role of the
    fixed-role handler, both give the same outcome on the same role table,
    whatever the decision procedure. *)
Theorem handler_versions_agree :
  forall TrimSpace engine mF mC r repl,
    Replacer r = Some repl ->
    TrimSpace (repl (ConfiguredRole.Role mC) "") = FixedRole.role ->
    FixedRole.roles mF = ConfiguredRole.roles mC ->
    snd (FixedRole.ServeHTTP_with engine mF r)
    = snd (ConfiguredRole.ServeHTTP_with TrimSpace engine mC r).
Proof.
  intros TrimSpace engine mF mC r repl HR Hrole Hroles.
  unfold FixedRole.ServeHTTP_with, ConfiguredRole.ServeHTTP_with.
  rewrite HR, Hrole, Hroles. cbv zeta.
  rewrite getActionFromRequest_method.
  destruct (String.eqb (extractResource (URL_Path r)) ""); [reflexivity|].
  destruct (String.eqb (getActionFromMethod _ _) ""); [reflexivity|].
  change (String.eqb FixedRole.role "") with false. cbv iota.
  destruct (ConfiguredRole.roles mC !! FixedRole.role); [|reflexivity].
  now destruct (engine _ _ _).
Qed.

Example handler_versions_agree_witness :
  snd (FixedRole.ServeHTTP
         {| FixedRole.RolesFilePath := "roles.json";
            FixedRole.roles := {[ "accountant" := adminRules ]} |}
         (sampleRequest "DELETE" "/invoices/7"))
  = snd (ConfiguredRole.ServeHTTP (fun s => s)
           {| ConfiguredRole.Role := "accountant";
              ConfiguredRole.RolesFilePath := "roles.json";
              ConfiguredRole.roles := {[ "accountant" := adminRules ]} |}
           (sampleRequest "DELETE" "/invoices/7")).
Proof.
  apply (handler_versions_agree _ _ _ _ _ (fun input _ => input));
    reflexivity.
Defined.

(** ** Loading the role table: [Provision] and [Validate] *)

Module Lifecycle.

(** The module between its creation and its use: the role table is nil
    until [Provision] has stored one. *)
Record Middleware := {
  Role : string;
  RolesFilePath : string;
  roles : option (gmap string (list Permission))
}.

Section Provisioning.

(** [os.ReadFile] and [json.Unmarshal], with the errors they return. *)
Variable error : Type.
Variable ReadFile : string -> result error string.
Variable json_Unmarshal :
  string -> result error (gmap string (list (gmap string JSONValue))).

(** [Provision]: the module after the call, and the error returned ([None]
    for nil).  The role table is assigned after both the file and its
    decoding went well. *)
Definition Provision (m : Middleware) : Middleware * option error :=
match ReadFile (RolesFilePath m) with
| Error err => (m, Some err)
| Ok file =>
    match UnmarshalJSON json_Unmarshal file with
    | Error err => (m, Some err)
    | Ok rd =>
        ({| Role := Role m; RolesFilePath := RolesFilePath m;
            roles := Some rd |}, None)
    end
end.

End Provisioning.

(** [Validate]: the error returned, [None] for nil. *)
Definition Validate (m : Middleware) : option string :=
match roles m with
| None => Some "no role permissions defined"
| Some _ =>
    if String.eqb (Role m) "" then Some "no role defined" else None
end.

(** The module as [ServeHTTP] reads it: indexing a nil map finds nothing,
    as indexing the empty map does. *)
Definition serving (m : Middleware) : ConfiguredRole.Middleware :=
{| ConfiguredRole.Role := Role m;
   ConfiguredRole.RolesFilePath := RolesFilePath m;
   ConfiguredRole.roles := default ∅ (roles m) |}.

End Lifecycle.

Arguments Lifecycle.Provision {error} ReadFile json_Unmarshal m.

(** X21.  [Provision] returns nil exactly when the roles file is read and
    decoded, and then the role table of the module is the conversion of
    the decoded map, its other fields being kept.  When it returns an
    error, this is the error of the read or of the decoding, and the module
    keeps the role table it had. *)
Theorem Provision_outcomes :
  forall (error : Type) (ReadFile : string -> result error string)
         (json_Unmarshal :
            string -> result error (gmap string (list (gmap string JSONValue))))
         (m : Lifecycle.Middleware),
    let after := Lifecycle.Provision ReadFile json_Unmarshal m in
    (snd after = None
     <-> exists file raw,
         ReadFile (Lifecycle.RolesFilePath m) = Ok file
         /\ json_Unmarshal file = Ok raw
         /\ fst after
            = {| Lifecycle.Role := Lifecycle.Role m;
                 Lifecycle.RolesFilePath := Lifecycle.RolesFilePath m;
                 Lifecycle.roles := Some (convertRoles raw) |})
    /\ (forall err,
          snd after = Some err ->
          fst after = m
          /\ (ReadFile (Lifecycle.RolesFilePath m) = Error err
              \/ exists file,
                  ReadFile (Lifecycle.RolesFilePath m) = Ok file
                  /\ json_Unmarshal file = Error err)).
Proof.
  intros error ReadFile json_Unmarshal m. cbv zeta.
  unfold Lifecycle.Provision, UnmarshalJSON.
  destruct (ReadFile (Lifecycle.RolesFilePath m)) as [file|e] eqn:EF.
  - destruct (json_Unmarshal file) as [raw|e] eqn:EJ; simpl.
    + split.
      * split; [intros _; now exists file, raw | reflexivity].
      * discriminate.
    + split.
      * split; [discriminate|]. intros (f & raw & Hf & Hj & _).
        injection Hf as <-. congruence.
      * intros err H. injection H as <-. split; [reflexivity|].
        right. now exists file.
  - simpl. split.
    + split; [discriminate|]. intros (f & raw & Hf & _). discriminate.
    + intros err H. injection H as <-. split; [reflexivity | now left].
Qed.

(** X22.  After a [Provision] that returned nil, [Validate] returns nil
    exactly when the role of the module is not empty, even if the decoded
    role table is empty.  A module whose role table is nil is refused by
    [Validate], whatever its role; this is the case of a new module whose
    [Provision] failed. *)
Theorem Validate_after_Provision :
  forall (error : Type) (ReadFile : string -> result error string)
         (json_Unmarshal :
            string -> result error (gmap string (list (gmap string JSONValue))))
         (m : Lifecycle.Middleware),
    let after := Lifecycle.Provision ReadFile json_Unmarshal m in
    (snd after = None ->
     (Lifecycle.Validate (fst after) = None <-> Lifecycle.Role m <> "")
     /\ (Lifecycle.Role m = "" ->
         Lifecycle.Validate (fst after) = Some "no role defined"))
    /\ (Lifecycle.roles m = None -> snd after <> None ->
        Lifecycle.Validate (fst after) = Some "no role permissions defined").
Proof.
  intros error ReadFile json_Unmarshal m. cbv zeta.
  unfold Lifecycle.Provision, UnmarshalJSON.
  destruct (ReadFile (Lifecycle.RolesFilePath m)) as [file|e];
    [destruct (json_Unmarshal file) as [raw|e]|]; simpl.
  - split; [|intros _ H; now destruct H]. intros _.
    unfold Lifecycle.Validate. simpl.
    destruct (String.eqb_spec (Lifecycle.Role m) ""); split;
      intuition congruence.
  - split; [discriminate|]. intros Hn _. unfold Lifecycle.Validate.
    now rewrite Hn.
  - split; [discriminate|]. intros Hn _. unfold Lifecycle.Validate.
    now rewrite Hn.
Qed.

(** Reading any path gives [null], which decodes to the nil map. *)
Definition readNull (path : string) : result string string := Ok "null".

Definition decodeNull (data : string)
  : result string (gmap string (list (gmap string JSONValue))) :=
if String.eqb data "null" then Ok ∅ else Error "invalid character".

Definition freshModule : Lifecycle.Middleware :=
{| Lifecycle.Role := "guest"; Lifecycle.RolesFilePath := "roles.json";
   Lifecycle.roles := None |}.

Example Validate_after_Provision_witness :
  Lifecycle.Validate
    (fst (Lifecycle.Provision readNull decodeNull freshModule)) = None.
Proof.
  apply (proj1 (Validate_after_Provision string readNull decodeNull
                  freshModule));
    [reflexivity | discriminate].
Defined.

(** X23.  From the roles file to the decision: after a [Provision] that
    read and decoded the file into [raw], the handler hands a request with
    a resource to the next handler exactly when the method is supported,
    the resolved role is not empty and is a key of [raw], and
    [canAccessWithPermissions] grants the resolved action on the resource
    to the conversion of the rule objects of that key. *)
Theorem provisioned_handler_decision :
  forall (error : Type) (ReadFile : string -> result error string)
         (json_Unmarshal :
            string -> result error (gmap string (list (gmap string JSONValue))))
         (m : Lifecycle.Middleware) (file : string)
         (raw : gmap string (list (gmap string JSONValue)))
         (TrimSpace : string -> string) (r : Request)
         (repl : string -> string -> string),
    ReadFile (Lifecycle.RolesFilePath m) = Ok file ->
    json_Unmarshal file = Ok raw ->
    Replacer r = Some repl ->
    extractResource (URL_Path r) <> "" ->
    let after := fst (Lifecycle.Provision ReadFile json_Unmarshal m) in
    let role := TrimSpace (repl (Lifecycle.Role m) "") in
    snd (ConfiguredRole.ServeHTTP TrimSpace (Lifecycle.serving after) r)
    = NextHandler
    <-> supportedMethod (Method r)
        /\ role <> ""
        /\ exists objs,
            raw !! role = Some objs
            /\ canAccessWithPermissions (map convertPermission objs)
                 (getActionFromRequest r) (extractResource (URL_Path r))
               = true.
Proof.
  intros error ReadFile json_Unmarshal m file raw TrimSpace r repl
         HF HJ HR NE. cbv zeta.
  unfold Lifecycle.Provision, UnmarshalJSON. rewrite HF, HJ. simpl.
  rewrite (proj2 handler_passes_cases). unfold Lifecycle.serving. simpl.
  split.
  - intros (x & Hx & [E|(perms & NR & L & G & Hs)]); [contradiction|].
    assert (x = repl) as -> by congruence.
    rewrite convertRoles_lookup in L.
    destruct (raw !! TrimSpace (repl (Lifecycle.Role m) "")) as [objs|] eqn:EL;
      [|discriminate].
    simpl in L. injection L as <-.
    repeat split; try assumption. now exists objs.
  - intros (Hs & NR & objs & L & G). exists repl. split; [assumption|].
    right. exists (map convertPermission objs).
    repeat split; try assumption.
    rewrite convertRoles_lookup, L. reflexivity.
Qed.

(** A decoded roles file with one role and one rule object. *)
Definition guestRaw : gmap string (list (gmap string JSONValue)) :=
{[ "guest" := [ {[ "action" := JArray [JString "list"; JNumber 0];
                   "resource" := JString "posts" ]} ] ]}.

Definition readRoles (path : string) : result string string := Ok "roles".

Definition decodeGuest (data : string)
  : result string (gmap string (list (gmap string JSONValue))) :=
Ok guestRaw.

Example provisioned_handler_decision_witness :
  snd (ConfiguredRole.ServeHTTP (fun s => s)
         (Lifecycle.serving
            (fst (Lifecycle.Provision readRoles decodeGuest freshModule)))
         (sampleRequest "GET" "/posts"))
  = NextHandler.
Proof.
  apply (proj2 (provisioned_handler_decision string readRoles decodeGuest
                  freshModule "roles" guestRaw (fun s => s)
                  (sampleRequest "GET" "/posts") (fun input _ => input)
                  eq_refl eq_refl eq_refl ltac:(discriminate))).
  split; [now left|]. split; [discriminate|].
  eexists. split; vm_compute; reflexivity.
Defined.

(** ** Rules that look like deny rules, admin rules and path rules *)

Section RuleShapes.

Lemma containsByte_app (c : ascii) (a b : string) :
  containsByte c (a +:+ b) = containsByte c a || containsByte c b.
Proof.
  induction a as [|x a IH]; [reflexivity|].
  change (String x a +:+ b) with (String x (a +:+ b)).
  cbn [containsByte]. now rewrite IH, orb_assoc.
Qed.

Lemma matchWildcard_separator (pattern resource : string) :
  containsByte "/" pattern = true ->
  containsByte "/" resource = false ->
  matchWildcard pattern resource = false.
Proof.
  intros Hp Hr.
  destruct (matchWildcard pattern resource) eqn:M; [|reflexivity].
  apply matchWildcard_true in M as [->|[->|(q & rest & -> & ->)]].
  - discriminate.
  - congruence.
  - rewrite containsByte_app in Hp, Hr. simpl in Hp.
    rewrite orb_false_r in Hp. rewrite Hp in Hr. discriminate.
Qed.

Lemma canAccess_singleton (p : Permission) (action resource : string) :
  canAccessWithPermissions [p] action resource
  = negb (String.eqb (Type_ p) "deny") && matchTarget p resource action.
Proof.
  unfold canAccessWithPermissions. simpl. rewrite !orb_false_r.
  destruct (String.eqb (Type_ p) "deny"), (matchTarget p resource action);
    reflexivity.
Qed.

End RuleShapes.

(** X24.  The conversion makes a deny rule of a rule object exactly when
    its ["type"] is the string ["deny"], in lower case.  With any other
    type, a missing one or one that is not a string, the rule grants what
    it matches: alone in a list, it grants a request exactly when it
    matches it. *)
Theorem only_lowercase_deny_denies :
  forall perm,
    (Type_ (convertPermission perm) = "deny"
     <-> perm !! "type" = Some (JString "deny"))
    /\ (perm !! "type" <> Some (JString "deny") ->
        forall action resource,
          canAccessWithPermissions [convertPermission perm] action resource
          = matchTarget (convertPermission perm) resource action).
Proof.
  intros perm.
  assert (Type_ (convertPermission perm) = "deny"
          <-> perm !! "type" = Some (JString "deny")) as Hiff.
  { unfold convertPermission. simpl.
    destruct (perm !! "type") as [[| | |t| |]|]; split;
      try discriminate; congruence. }
  split; [exact Hiff|].
  intros Hn action resource. rewrite canAccess_singleton.
  destruct (String.eqb_spec (Type_ (convertPermission perm)) "deny") as [E|_].
  - now apply Hiff in E.
  - reflexivity.
Qed.

Example only_lowercase_deny_denies_witness :
  canAccessWithPermissions
    [convertPermission {[ "type" := JString "DENY";
                          "action" := JString "*";
                          "resource" := JString "*" ]}]
    "delete" "posts"
  = true.
Proof.
  rewrite (proj2 (only_lowercase_deny_denies
                    {[ "type" := JString "DENY"; "action" := JString "*";
                       "resource" := JString "*" ]})).
  - vm_compute. reflexivity.
  - vm_compute. discriminate.
Defined.

(** X25.  A rule list without deny rule that holds a rule with resource
    ["*"] and action ["*"] (as a single string, or in its list) grants
    every request. *)
Theorem wildcard_rule_grants_all :
  forall rules p action resource,
    In p rules ->
    Resource p = "*" ->
    In "*" (effectiveActions (Action p)) ->
    (forall d, In d rules -> Type_ d <> "deny") ->
    canAccessWithPermissions rules action resource = true.
Proof.
  intros rules p action resource Hp HR HA Hnd.
  apply canAccess_true. split.
  - exists p. split; [assumption|]. split; [now apply Hnd|].
    assert (matchWildcard (Resource p) resource = true) as HW
      by now rewrite HR.
    destruct (String.eqb_spec action "") as [->|N1];
      [apply matchTarget_generic; tauto|].
    destruct (String.eqb_spec action "*") as [->|N2];
      [apply matchTarget_generic; tauto|].
    apply matchTarget_effective; tauto.
  - intros (d & Hd & Hdt & _). now apply (Hnd d).
Qed.

Example wildcard_rule_grants_all_witness :
  canAccessWithPermissions adminRules "edit" "invoices" = true.
Proof.
  apply (wildcard_rule_grants_all adminRules
           {| Type_ := ""; Resource := "*";
              Action := {| Single := Some "*"; Multiple := None |} |});
    [now left | reflexivity | now left |].
  intros d [<-|[]]. discriminate.
Defined.

(** X26.  A resource pattern that holds a ["/"] matches no resource
    without ["/"].  As the resource of a request never holds one, a rule
    with such a pattern matches no request checked by the handler and has
    no part in its decision. *)
Theorem pattern_with_slash_is_dead :
  forall p l1 l2 action path,
    containsByte "/" (Resource p) = true ->
    matchTarget p (extractResource path) action = false
    /\ canAccessWithPermissions (l1 ++ p :: l2) action (extractResource path)
       = canAccessWithPermissions (l1 ++ l2) action (extractResource path).
Proof.
  intros p l1 l2 action path Hp.
  assert (matchTarget p (extractResource path) action = false) as H.
  { unfold matchTarget.
    now rewrite (matchWildcard_separator _ _ Hp (extractResource_no_sep path)). }
  split; [assumption | now apply canAccess_skip_unmatched].
Qed.

Example pattern_with_slash_is_dead_witness :
  matchTarget {| Type_ := "deny"; Resource := "posts/*";
                 Action := {| Single := Some "*"; Multiple := None |} |}
              (extractResource "/posts/1") "show" = false.
Proof.
  apply (pattern_with_slash_is_dead
           {| Type_ := "deny"; Resource := "posts/*";
              Action := {| Single := Some "*"; Multiple := None |} |}
           [] [] "show" "/posts/1").
  reflexivity.
Defined.
